(** * Cooperative-bank backend: accounts and the transaction routes

    A shallow embedding of the account model ([models/Account.js]), the
    transaction model ([models/Transaction.js]), the account routes
    ([routes/accounts.js]), the transaction routes ([routes/transactions.js])
    and the error middleware of [server.js].

    Conventions of the embedding:
    - a JavaScript [Number] is an IEEE 754 binary64 value ([spec_float] with
      precision 53 and maximal exponent 1024), with the operations of
      [SpecFloat]; [Number::toString] and [Number(string)] are written out;
    - a string is a sequence of code units below 256;
    - a numeric field of a request body is a JSON number or a JSON string
      ([Js.Value]); a body that carries an array, an object, a boolean or
      [null] there is not described; the other fields of a body are strings
      and [nomineeDetails] is an object whose fields are strings; a field
      that is optional can be absent;
    - an [ObjectId] is the 96-bit number it holds; a request names a document
      by a string, which the validators of the route and the cast of the
      query judge;
    - the collection of accounts is a finite map from [_id] to the rest of
      the document; the transaction collection is the list of inserted
      documents, oldest first;
    - the clock, the random source and the ObjectId generator are inputs
      ([Env]);
    - [save()] validates the document before it runs the [pre('save')] hooks
      of the schema, as Mongoose does; it validates every path of the
      document;
    - the database supports sessions (a replica set): the writes of an
      aborted session are discarded; [oplog] keeps every write that was
      sent, also those of an aborted session;
    - the bank of the authenticated user exists, so [req.cooperativeBankId]
      is defined;
    - an [async] route handler is a function on the store that either answers
      or throws; a thrown error keeps the writes already made, unless they
      were made in a session that is aborted. *)

From Stdlib Require Import ZArith NArith.
From Stdlib Require Import Ascii String DecimalString DecimalNat DecimalN.
From Stdlib Require Import Floats.SpecFloat.
From stdpp Require Import gmap strings list fin_maps.

Local Open Scope string_scope.

Abbreviation ObjectId := N.

(** ** The JavaScript runtime: strings and numbers *)

Module Js.

(** [String(n)] for a non-negative integer. *)
Definition String_of_nat (n : nat) : string :=
  NilEmpty.string_of_uint (Nat.to_uint n).

(** [n.toString()] for a non-negative integer held in [N]. *)
Definition String_of_N (n : N) : string :=
  NilEmpty.string_of_uint (N.to_uint n).

Fixpoint repeat_char (c : ascii) (n : nat) : string :=
  match n with
  | O => EmptyString
  | S n' => String c (repeat_char c n')
  end.

(** [s.padStart(targetLength, c)] for a one-character pad string. *)
Definition padStart (targetLength : nat) (c : ascii) (s : string) : string :=
  repeat_char c (targetLength - String.length s) ++ s.

(** The code units below 256 that [\s] matches, which are also the white
    space and line terminators that [Number(s)] drops: TAB, LF, VT, FF, CR,
    SP and NBSP. *)
Definition is_space (c : ascii) : bool :=
  match nat_of_ascii c with
  | 9 | 10 | 11 | 12 | 13 | 32 | 160 => true
  | _ => false
  end.

Fixpoint trimStart (s : string) : string :=
  match s with
  | EmptyString => EmptyString
  | String c s' => if is_space c then trimStart s' else s
  end.

(** Drops trailing white space: a suffix is kept when something other
    than white space follows or is at its head. *)
Fixpoint trimEnd (s : string) : string :=
  match s with
  | EmptyString => EmptyString
  | String c s' =>
      match trimEnd s' with
      | EmptyString => if is_space c then EmptyString else String c EmptyString
      | t => String c t
      end
  end.

Definition trim (s : string) : string := trimEnd (trimStart s).

Definition is_digit (c : ascii) : bool :=
  let n := nat_of_ascii c in (48 <=? n)%nat && (n <=? 57)%nat.

Fixpoint all_digits (s : string) : bool :=
  match s with
  | EmptyString => true
  | String c s' => is_digit c && all_digits s'
  end.

(** [/^[0-9]{k}$/.test(s)] *)
Definition matches_digits (k : nat) (s : string) : bool :=
  (String.length s =? k)%nat && all_digits s.

(** *** Numbers *)

Definition Number : Type := spec_float.

Definition add : Number -> Number -> Number := SFadd 53%Z 1024%Z.
Definition sub : Number -> Number -> Number := SFsub 53%Z 1024%Z.
Definition ltb : Number -> Number -> bool := SFltb.
Definition leb : Number -> Number -> bool := SFleb.
Definition eqb : Number -> Number -> bool := SFeqb.

Definition NaN : Number := S754_nan.

Definition isNaN (x : Number) : bool :=
  match x with S754_nan => true | _ => false end.

(** The Number nearest to [(-1)^neg * m * 10^e], ties to even: the value of
    a decimal literal. *)
Definition ofDecimal (neg : bool) (m : N) (e : Z) : Number :=
  match m with
  | N0 => S754_zero neg
  | Npos p =>
      match e with
      | Zneg q =>
          SFdiv 53%Z 1024%Z (S754_finite neg p 0%Z)
            (S754_finite false (Pos.pow 10 q) 0%Z)
      | _ => binary_round 53%Z 1024%Z neg (p * Z.to_pos (10 ^ e)%Z)%positive 0%Z
      end
  end.

(** An integer literal of the source. *)
Definition of_Z (z : Z) : Number :=
  ofDecimal (z <? 0)%Z (Z.abs_N z) 0.

(** *** [Number::toString] *)

(** The least [j] with [num * 10^j >= den], searched upwards. *)
Fixpoint scaleUp (fuel : nat) (num den : N) (j : Z) : Z :=
  match fuel with
  | O => j
  | S fuel' =>
      if (den <=? num)%N then j
      else scaleUp fuel' (num * 10)%N den (j + 1)%Z
  end.

(** [floor (log10 (num / den))] for a positive fraction. *)
Definition log10_floor (num den : N) : Z :=
  if (den <=? num)%N
  then (Z.of_nat (String.length (String_of_N (num / den))) - 1)%Z
  else (- scaleUp 400 num den 0)%Z.

(** Quotient and remainder of [num / den] by [10^q], with the divisor. *)
Definition scaled (num den : N) (q : Z) : N * N * N :=
  match q with
  | Zneg p =>
      let n := (num * 10 ^ Npos p)%N in (n / den, n mod den, den)%N
  | _ =>
      let d := (den * 10 ^ Z.to_N q)%N in (num / d, num mod d, d)%N
  end.

(** The integer [s] of [k] digits such that [s * 10^(e10 - k + 1)] is [x],
    when there is one: of the two neighbours of the exact value of [x], the
    nearer one first. *)
Definition digitsAt (x : Number) (num den : N) (e10 : Z) (k : Z)
  : option (N * Z) :=
  let q := (e10 - k + 1)%Z in
  let '(lo, r, d) := scaled num den q in
  let hi := if (r =? 0)%N then lo else (lo + 1)%N in
  let lo_ok := eqb (ofDecimal false lo q) x in
  let hi_ok := eqb (ofDecimal false hi q) x in
  let lo_first :=
    match (2 * r ?= d)%N with
    | Lt => true
    | Gt => false
    | Eq => N.even lo
    end in
  if lo_first then
    if lo_ok then Some (lo, q) else if hi_ok then Some (hi, q) else None
  else
    if hi_ok then Some (hi, q) else if lo_ok then Some (lo, q) else None.

(** As few digits as possible: [k] grows from 1; 17 digits always do. *)
Fixpoint shortest (fuel : nat) (x : Number) (num den : N) (e10 : Z) (k : Z)
  : N * Z :=
  match fuel with
  | O =>
      let '(lo, _, _) := scaled num den (e10 - k + 1)%Z in
      (lo, (e10 - k + 1)%Z)
  | S fuel' =>
      match digitsAt x num den e10 k with
      | Some r => r
      | None => shortest fuel' x num den e10 (k + 1)%Z
      end
  end.

Fixpoint dropZerosEnd (s : string) : string :=
  match s with
  | EmptyString => EmptyString
  | String c s' =>
      match dropZerosEnd s' with
      | EmptyString =>
          if Ascii.eqb c "0" then EmptyString else String c EmptyString
      | t => String c t
      end
  end.

Definition substring_from (n : nat) (s : string) : string :=
  String.substring n (String.length s - n) s.

(** The text of a positive finite number whose digits are [c] followed by
    [rest] (the last of them not 0) with the decimal point after the
    [n]-th digit. *)
Definition format (c : ascii) (rest : string) (n : Z) : string :=
  let d := String c rest in
  let k := Z.of_nat (String.length d) in
  if (k <=? n)%Z && (n <=? 21)%Z then
    String c (rest ++ repeat_char "0" (Z.to_nat (n - k)))
  else if (0 <? n)%Z && (n <=? 21)%Z then
    String.substring 0 (Z.to_nat n) d ++ "." ++ substring_from (Z.to_nat n) d
  else if (-6 <? n)%Z && (n <=? 0)%Z then
    "0." ++ repeat_char "0" (Z.to_nat (- n)) ++ d
  else
    let e := (n - 1)%Z in
    let exponent :=
      (if (e <? 0)%Z then "-" else "+") ++ String_of_N (Z.abs_N e) in
    match rest with
    | EmptyString => String c ("e" ++ exponent)
    | _ => String c ("." ++ rest ++ "e" ++ exponent)
    end.

Definition toString_finite (m : positive) (e : Z) : string :=
  let x := S754_finite false m e in
  let '(num, den) :=
    match e with
    | Zneg p => (Npos m, (2 ^ Npos p)%N)
    | _ => ((Npos m * 2 ^ Z.to_N e)%N, 1%N)
    end in
  let e10 := log10_floor num den in
  let '(s, q) := shortest 17 x num den e10 1%Z in
  let digits := String_of_N s in
  match dropZerosEnd digits with
  | String c rest => format c rest (Z.of_nat (String.length digits) + q)%Z
  | EmptyString => "0"
  end.

(** [String(x)] and [`${x}`] for a Number. *)
Definition toString (x : Number) : string :=
  match x with
  | S754_nan => "NaN"
  | S754_zero _ => "0"
  | S754_infinity false => "Infinity"
  | S754_infinity true => "-Infinity"
  | S754_finite false m e => toString_finite m e
  | S754_finite true m e => "-" ++ toString_finite m e
  end.

(** *** [Number(s)] for a string *)

Definition digitValue (c : ascii) : option N :=
  if is_digit c then Some (N.of_nat (nat_of_ascii c - 48)) else None.

(** The value of a digit in base 16, 8 or 2. *)
Definition digitValueIn (base : N) (c : ascii) : option N :=
  let n := nat_of_ascii c in
  let v :=
    if (48 <=? n)%nat && (n <=? 57)%nat then Some (N.of_nat (n - 48))
    else if (97 <=? n)%nat && (n <=? 102)%nat then Some (N.of_nat (n - 87))
    else if (65 <=? n)%nat && (n <=? 70)%nat then Some (N.of_nat (n - 55))
    else None in
  match v with
  | Some d => if (d <? base)%N then Some d else None
  | None => None
  end.

(** Reads the decimal digits at the head of [s]: the number they denote
    after [acc], how many there are, and the rest of [s]. *)
Fixpoint readDigits (s : string) (acc : N) (count : nat) : N * nat * string :=
  match s with
  | String c s' =>
      match digitValue c with
      | Some d => readDigits s' (acc * 10 + d)%N (S count)
      | None => (acc, count, s)
      end
  | EmptyString => (acc, count, s)
  end.

(** The digits of a literal in base 16, 8 or 2, which must fill [s]. *)
Fixpoint readInteger (base : N) (s : string) (acc : N) : option N :=
  match s with
  | EmptyString => Some acc
  | String c s' =>
      match digitValueIn base c with
      | Some d => readInteger base s' (acc * base + d)%N
      | None => None
      end
  end.

(** An optional sign. *)
Definition readSign (s : string) : bool * string :=
  match s with
  | String "+" t => (false, t)
  | String "-" t => (true, t)
  | _ => (false, s)
  end.

(** [ExponentPart], optional, up to the end of the string. *)
Definition readExponent (s : string) : option Z :=
  match s with
  | EmptyString => Some 0%Z
  | String c s' =>
      if Ascii.eqb c "e" || Ascii.eqb c "E" then
        let '(neg, s'') := readSign s' in
        match readDigits s'' 0 0 with
        | (_, O, _) => None
        | (e, _, EmptyString) =>
            Some (if neg then (- Z.of_N e)%Z else Z.of_N e)
        | _ => None
        end
      else None
  end.

(** [StrUnsignedDecimalLiteral] *)
Definition readUnsignedDecimal (neg : bool) (s : string) : Number :=
  if String.eqb s "Infinity" then S754_infinity neg
  else
    let '(ip, n1, r1) := readDigits s 0 0 in
    let '(m, n2, r2) :=
      match r1 with
      | String "." t => readDigits t ip 0
      | _ => (ip, O, r1)
      end in
    match (n1 + n2)%nat, readExponent r2 with
    | S _, Some e => ofDecimal neg m (e - Z.of_nat n2)%Z
    | _, _ => NaN
    end.

Definition readNonDecimal (base : N) (s : string) : Number :=
  match s with
  | EmptyString => NaN
  | _ =>
      match readInteger base s 0 with
      | Some m => ofDecimal false m 0
      | None => NaN
      end
  end.

(** [Number(s)]: white space around the literal is dropped, the empty
    string is 0, and what is not a numeric literal is NaN. *)
Definition StringToNumber (s : string) : Number :=
  match trim s with
  | EmptyString => S754_zero false
  | String "+" t => readUnsignedDecimal false t
  | String "-" t => readUnsignedDecimal true t
  | String "0" (String "x" t) | String "0" (String "X" t) =>
      readNonDecimal 16 t
  | String "0" (String "o" t) | String "0" (String "O" t) =>
      readNonDecimal 8 t
  | String "0" (String "b" t) | String "0" (String "B" t) =>
      readNonDecimal 2 t
  | t => readUnsignedDecimal false t
  end.

(** *** Values of a request body and the operators the routes apply *)

Inductive Value :=
| Num (x : Number)
| Str (s : string).

Definition ToString (v : Value) : string :=
  match v with
  | Num x => toString x
  | Str s => s
  end.

Definition ToNumber (v : Value) : Number :=
  match v with
  | Num x => x
  | Str s => StringToNumber s
  end.

(** [a + b]: concatenation as soon as one operand is a string. *)
Definition plus (a b : Value) : Value :=
  match a, b with
  | Num x, Num y => Num (add x y)
  | _, _ => Str (ToString a ++ ToString b)
  end.

(** [a - b] *)
Definition minus (a b : Value) : Number := sub (ToNumber a) (ToNumber b).

(** [a > b] where [b] is a Number: the comparison is numeric. *)
Definition greaterThan (a : Value) (b : Number) : bool := ltb b (ToNumber a).

(** [v] in a condition, in [!v] and on the left of [||]. *)
Definition truthy (v : Value) : bool :=
  match v with
  | Num x => negb (isNaN x || eqb x (S754_zero false))
  | Str s => negb (String.eqb s "")
  end.

End Js.

(** ** The validators of [validator.js] that the routes use *)

Module Validator.

(** The text that express-validator hands to a validator. *)
Definition toString (v : Js.Value) : string :=
  match v with
  | Js.Num x => if Js.isNaN x then "" else Js.toString x
  | Js.Str s => s
  end.

(** [isNumeric]: [/^[+-]?([0-9]*[.])?[0-9]+$/] *)
Definition isNumeric (s : string) : bool :=
  let '(_, t) := Js.readSign s in
  match Js.readDigits t 0 0 with
  | (_, S _, EmptyString) => true
  | (_, _, String "." u) =>
      match Js.readDigits u 0 0 with
      | (_, S _, EmptyString) => true
      | _ => false
      end
  | _ => false
  end.

(** The pattern of [isFloat]: an optional sign, optional digits, an
    optional point followed by optional digits, and an optional exponent
    ([e] or [E], an optional sign, digits). *)
Definition matchesFloat (s : string) : bool :=
  let '(_, t) := Js.readSign s in
  let '(_, _, r1) := Js.readDigits t 0 0 in
  let r2 :=
    match r1 with
    | String "." u => let '(_, _, r) := Js.readDigits u 0 0 in r
    | _ => r1
    end in
  match Js.readExponent r2 with
  | Some _ => true
  | None => false
  end.

(** [isFloat(s, { min })]. The value compared is [parseFloat(s)], which
    for a string that the pattern admits is [Number(s)]. *)
Definition isFloat (min : Js.Number) (s : string) : bool :=
  matchesFloat s
  && negb (bool_decide (s ∈ [""; "."; ","; "-"; "+"]))
  && Js.leb min (Js.StringToNumber s).

Definition hexValue (c : ascii) : option N := Js.digitValueIn 16 c.

(** Every character is a hexadecimal digit. *)
Fixpoint allHexadecimal (s : string) : bool :=
  match s with
  | EmptyString => true
  | String c s' =>
      match hexValue c with
      | Some _ => allHexadecimal s'
      | None => false
      end
  end.

Definition isHexPrefix (c : ascii) : bool :=
  match c with
  | "x" | "X" | "h" | "H" => true
  | _ => false
  end%char.

(** [isHexadecimal]: [/^(0x|0h)?[0-9A-F]+$/i] *)
Definition isHexadecimal (s : string) : bool :=
  let digits :=
    match s with
    | String "0" (String c t) => if isHexPrefix c then t else s
    | _ => s
    end in
  negb (String.eqb digits "") && allHexadecimal digits.

(** [isMongoId]: [isHexadecimal(str) && str.length === 24] *)
Definition isMongoId (s : string) : bool :=
  isHexadecimal s && (String.length s =? 24)%nat.

End Validator.

(** ** Data model *)

(** [models/User.js]: the [role] enumeration. *)
Inductive Role := member | admin | manager | super_admin.

(** [models/Account.js]: the [accountType] enumeration. *)
Inductive AccountType := savings | current | fixed_deposit | recurring_deposit.

(** [models/Transaction.js]: the [transactionType] and [status] enumerations. *)
Inductive TransactionType :=
  deposit | withdrawal | transfer | interest | penalty.
Inductive TransactionStatus := pending | completed | failed | cancelled.

#[global] Instance Role_eq_dec : EqDecision Role.
Proof. solve_decision. Defined.
#[global] Instance AccountType_eq_dec : EqDecision AccountType.
Proof. solve_decision. Defined.
#[global] Instance TransactionType_eq_dec : EqDecision TransactionType.
Proof. solve_decision. Defined.

(** The string of an account type. *)
Definition AccountType_name (t : AccountType) : string :=
  match t with
  | savings => "savings"
  | current => "current"
  | fixed_deposit => "fixed_deposit"
  | recurring_deposit => "recurring_deposit"
  end.

Record NomineeDetails := mkNominee {
  name : option string;
  relationship : option string;
  phone : option string;
  aadharNumber : option string
}.

(** A document of the [Account] collection. Its [_id] is the key under
    which the collection holds it (see [Store]). *)
Record Account := mkAccount {
  accountNumber : string;
  userId : ObjectId;
  cooperativeBankId : ObjectId;
  accountType : AccountType;
  balance : Js.Number;
  minimumBalance : Js.Number;
  interestRate : Js.Number;
  isActive : bool;
  lastTransactionDate : option N;
  branchCode : string;
  nomineeDetails : option NomineeDetails
}.

(** A document of the [Transaction] collection. The bank reference is
    [cooperativeBankId] in the source; it is renamed because a Rocq record
    field is a global name. *)
Record Transaction := mkTransaction {
  transactionId : string;
  txCooperativeBankId : ObjectId;
  fromAccount : option ObjectId;
  toAccount : option ObjectId;
  amount : Js.Number;
  transactionType : TransactionType;
  description : string;
  balanceAfter : Js.Number;
  status : TransactionStatus;
  referenceNumber : option string;
  processedBy : ObjectId;
  processedAt : N
}.

(** The authenticated caller that [authenticateToken] leaves in [req.user];
    [req.cooperativeBankId] is that user's bank. *)
Record User := mkUser {
  user_id : ObjectId;
  role : Role;
  userCooperativeBankId : ObjectId
}.

(** What the handlers read from outside the store: [Date.now()],
    [Math.floor(Math.random() * 1000)] and the [_id] Mongoose gives to the
    next new document. *)
Record Env := mkEnv {
  now : N;
  random1000 : nat;
  newObjectId : ObjectId
}.

(** A write sent to the database, in the order the driver sends them. *)
Inductive Write :=
| UpdateAccount (id : ObjectId)
| InsertAccount (id : ObjectId)
| InsertTransaction (tid : string).

Record Store := mkStore {
  accounts : gmap N Account;
  transactions : list Transaction;
  oplog : list Write
}.

Definition emptyStore : Store := mkStore ∅ [] [].

(** ** Errors and responses *)

(** What a [save()] and a query can throw. *)
Inductive Exn :=
| ValidationError (errors : list string)
| DuplicateKey (field : string)
| QueryCastError (message : string).

Inductive Payload :=
| NoData
| ErrorList (errors : list string)
| AccountData (account : Account)
| TransactionData (transaction : Transaction) (newBalance : Js.Value)
| TransferData (transaction : Transaction)
    (fromAccountBalance toAccountBalance : Js.Number).

Record Response := mkResponse {
  statusCode : nat;
  success : bool;
  message : string;
  data : Payload
}.

(** [middleware/validation.js] *)
Definition errorResponse (code : nat) (m : string) : Response :=
  mkResponse code false m NoData.

Definition successResponse (code : nat) (m : string) (d : Payload) : Response :=
  mkResponse code true m d.

(** The answer of [handleValidationErrors] when a validator of the route
    rejected the request. The answer also lists the fields at fault, which
    is left out here. *)
Definition validationFailed : Response :=
  mkResponse 400 false "Validation failed" NoData.

(** [server.js], the error-handling middleware, for the errors that a
    [save()] and a query throw. A [CastError] has no [statusCode] and takes
    the default branch: status 500 with the message of the error. *)
Definition errorMiddleware (e : Exn) : Response :=
  match e with
  | ValidationError errors =>
      mkResponse 400 false "Validation Error" (ErrorList errors)
  | DuplicateKey field =>
      mkResponse 400 false (field ++ " already exists") NoData
  | QueryCastError message => mkResponse 500 false message NoData
  end.

(** ** Database actions

    An action runs on the store and returns the store it leaves together
    with a value or the error it threw. *)

Definition Db (A : Type) : Type := Store -> Store * (Exn + A).

Definition ret {A} (a : A) : Db A := fun s => (s, inr a).

Definition throw {A} (e : Exn) : Db A := fun s => (s, inl e).

Definition bind {A B} (m : Db A) (k : A -> Db B) : Db B :=
  fun s =>
    match m s with
    | (s', inl e) => (s', inl e)
    | (s', inr a) => k a s'
    end.

Notation "'let*' x ':=' m 'in' k" := (bind m (fun x => k))
  (at level 10, x name, m at level 200, k at level 200).

(** [session.startTransaction(); try { body; commitTransaction() }
    catch (error) { abortTransaction(); throw error }]: the writes of [body]
    are kept when it returns; when it throws, the collections are as before
    and the log still holds what was sent. *)
Definition withTransaction {A} (body : Db A) : Db A :=
  fun s =>
    match body s with
    | (s', inl e) => (mkStore (accounts s) (transactions s) (oplog s'), inl e)
    | (s', inr a) => (s', inr a)
    end.

(** [asyncHandler] followed by the error middleware: a thrown error becomes
    a response, the store stays as the handler left it. *)
Definition asyncHandler (h : Db Response) (s : Store) : Store * Response :=
  match h s with
  | (s', inl e) => (s', errorMiddleware e)
  | (s', inr r) => (s', r)
  end.

(** ** Mongoose: casting a value to a [Number] path *)

Inductive Cast :=
| CastOk (x : Js.Number)
| CastNull
| CastError.

(** [castNumber]: the empty string is [null], a string is read by
    [Number(s)], and NaN is refused. *)
Definition castNumber (v : Js.Value) : Cast :=
  match v with
  | Js.Num x => if Js.isNaN x then CastError else CastOk x
  | Js.Str s =>
      if String.eqb s "" then CastNull
      else
        let x := Js.StringToNumber s in
        if Js.isNaN x then CastError else CastOk x
  end.

Definition quote : string := String (ascii_of_nat 34) EmptyString.

(** The message of the [CastError] that an assignment records. *)
Definition castMessage (v : Js.Value) (path : string) : string :=
  "Cast to Number failed for value " ++ quote ++ Js.ToString v ++ quote
  ++ (match v with
      | Js.Num _ => " (type number)"
      | Js.Str _ => " (type string)"
      end)
  ++ " at path " ++ quote ++ path ++ quote.

(** ** The Account model ([models/Account.js]) *)

(** The paths of an account document that have a validator. *)
Inductive AccountPath :=
| path_accountNumber
| path_balance
| path_minimumBalance
| path_interestRate
| path_branchCode.

#[global] Instance AccountPath_eq_dec : EqDecision AccountPath.
Proof. solve_decision. Defined.

Definition zero : Js.Number := Js.of_Z 0.

(** The validators of the schema: [required: true] on the two strings,
    [min: [0, ...]] on the three numbers. *)
Definition validate_accountNumber (doc : Account) : list string :=
  if decide (accountNumber doc = "") then ["Path `accountNumber` is required."]
  else [].

Definition validate_balance (doc : Account) : list string :=
  if Js.leb zero (balance doc) then [] else ["Balance cannot be negative"].

Definition validate_minimumBalance (doc : Account) : list string :=
  if Js.leb zero (minimumBalance doc) then []
  else ["Minimum balance cannot be negative"].

Definition validate_interestRate (doc : Account) : list string :=
  if Js.leb zero (interestRate doc) then []
  else ["Interest rate cannot be negative"].

Definition validate_branchCode (doc : Account) : list string :=
  if decide (branchCode doc = "") then ["Path `branchCode` is required."]
  else [].

Definition validate_path (doc : Account) (p : AccountPath) : list string :=
  match p with
  | path_accountNumber => validate_accountNumber doc
  | path_balance => validate_balance doc
  | path_minimumBalance => validate_minimumBalance doc
  | path_interestRate => validate_interestRate doc
  | path_branchCode => validate_branchCode doc
  end.

(** [doc.validate()], which [save()] runs first: the errors that
    assignments recorded ([invalid], by path), then the validators of every
    other path. *)
Definition validate_account (invalid : list (AccountPath * string))
    (doc : Account) : list string :=
  (invalid.*2
   ++ flat_map
        (fun p => if bool_decide (p ∈ invalid.*1) then []
                  else validate_path doc p)
        [path_accountNumber; path_balance; path_minimumBalance;
         path_interestRate; path_branchCode])%list.

Definition with_balance (doc : Account) (b : Js.Number) : Account :=
  mkAccount (accountNumber doc) (userId doc) (cooperativeBankId doc)
    (accountType doc) b (minimumBalance doc) (interestRate doc) (isActive doc)
    (lastTransactionDate doc) (branchCode doc) (nomineeDetails doc).

Definition with_lastTransactionDate (doc : Account) (date : N) : Account :=
  mkAccount (accountNumber doc) (userId doc) (cooperativeBankId doc)
    (accountType doc) (balance doc) (minimumBalance doc) (interestRate doc)
    (isActive doc) (Some date) (branchCode doc) (nomineeDetails doc).

Definition with_isActive (doc : Account) (a : bool) : Account :=
  mkAccount (accountNumber doc) (userId doc) (cooperativeBankId doc)
    (accountType doc) (balance doc) (minimumBalance doc) (interestRate doc) a
    (lastTransactionDate doc) (branchCode doc) (nomineeDetails doc).

Definition with_nomineeDetails (doc : Account) (n : option NomineeDetails)
  : Account :=
  mkAccount (accountNumber doc) (userId doc) (cooperativeBankId doc)
    (accountType doc) (balance doc) (minimumBalance doc) (interestRate doc)
    (isActive doc) (lastTransactionDate doc) (branchCode doc) n.

Definition with_accountNumber (doc : Account) (n : string) : Account :=
  mkAccount n (userId doc) (cooperativeBankId doc)
    (accountType doc) (balance doc) (minimumBalance doc) (interestRate doc)
    (isActive doc) (lastTransactionDate doc) (branchCode doc)
    (nomineeDetails doc).

(** A document in memory: its fields and the cast errors that assignments
    to it recorded. *)
Definition Document : Type := Account * list (AccountPath * string).

(** [doc.balance = v]: the value is cast; a value that does not cast
    leaves the path as it was and marks it invalid. ([null], which the
    empty string casts to, is not a value the routes assign: they assign a
    difference of numbers or the sum of a number and an amount.) *)
Definition assign_balance (doc : Document) (v : Js.Value) : Document :=
  match castNumber v with
  | CastOk x => (with_balance doc.1 x, doc.2)
  | CastNull => doc
  | CastError =>
      (doc.1, (doc.2 ++ [(path_balance, castMessage v "balance")])%list)
  end.

(** [Account.countDocuments({ cooperativeBankId })] *)
Definition countDocuments_byBank (bank : ObjectId) (s : Store) : nat :=
  size (filter (fun kv => cooperativeBankId kv.2 = bank) (accounts s)).

(** The pre-save hook: a document without account number gets
    [String(count + 1).padStart(12, '0')], [count] being the number of
    accounts of the document's bank. *)
Definition generateAccountNumber (doc : Account) (s : Store) : Account :=
  if decide (accountNumber doc = "") then
    with_accountNumber doc
      (Js.padStart 12 "0"
         (Js.String_of_nat
            (countDocuments_byBank (cooperativeBankId doc) s + 1)))
  else doc.

(** The unique index on [accountNumber] ([unique: true]). *)
Definition accountNumber_taken (n : string) (s : Store) : bool :=
  bool_decide (map_Exists (fun _ a => accountNumber a = n) (accounts s)).

(** The strings that cast to an ObjectId, among those of 24 characters:
    [/^[0-9a-fA-F]{24}$/]. *)
Definition checkForHex (id : string) : bool :=
  (String.length id =? 24)%nat && Validator.allHexadecimal id.

(** The ObjectId that a string of hexadecimal digits spells, in either
    case of the letters. *)
Fixpoint ObjectId_of_hex (s : string) (acc : N) : N :=
  match s with
  | EmptyString => acc
  | String c s' =>
      ObjectId_of_hex s'
        (acc * 16 + default 0%N (Validator.hexValue c))%N
  end.

Definition ObjectId_cast (id : string) : ObjectId := ObjectId_of_hex id 0.

(** The message of the [CastError] of a query by [_id]. *)
Definition castObjectIdMessage (id : string) : string :=
  "Cast to ObjectId failed for value " ++ quote ++ id ++ quote
  ++ " (type string) at path " ++ quote ++ "_id" ++ quote
  ++ " for model " ++ quote ++ "Account" ++ quote.

(** [Account.findById(id)] for a string of 24 characters: the query throws
    when the string does not cast to an ObjectId. *)
Definition Account_findById (id : string) : Db (option Account) :=
  fun s =>
    if checkForHex id then (s, inr (accounts s !! ObjectId_cast id))
    else (s, inl (QueryCastError (castObjectIdMessage id))).

(** [doc.save()] for a document fetched from the collection: validation,
    then the pre-save hook, then the update. *)
Definition Account_save (_id : ObjectId) (doc : Document) : Db unit :=
  fun s =>
    match validate_account doc.2 doc.1 with
    | [] =>
        let stored := generateAccountNumber doc.1 s in
        (mkStore (<[_id := stored]> (accounts s)) (transactions s)
           (oplog s ++ [UpdateAccount _id])%list, inr tt)
    | errors => (s, inl (ValidationError errors))
    end.

(** [doc.save()] for a new document: validation, then the pre-save hook,
    then the insert, which the unique indexes can refuse. *)
Definition Account_create (_id : ObjectId) (doc : Document) : Db Account :=
  fun s =>
    match validate_account doc.2 doc.1 with
    | [] =>
        let stored := generateAccountNumber doc.1 s in
        if accountNumber_taken (accountNumber stored) s then
          (s, inl (DuplicateKey "accountNumber"))
        else
          match accounts s !! _id with
          | Some _ => (s, inl (DuplicateKey "_id"))
          | None =>
              (mkStore (<[_id := stored]> (accounts s)) (transactions s)
                 (oplog s ++ [InsertAccount _id])%list, inr stored)
          end
    | errors => (s, inl (ValidationError errors))
    end.

(** [Account.findOne({ userId, accountType, isActive: true })], used only
    as an existence test. *)
Definition hasActiveAccountOfType (user : ObjectId) (t : AccountType)
    (s : Store) : bool :=
  bool_decide
    (map_Exists
       (fun _ a => userId a = user /\ accountType a = t /\ isActive a = true)
       (accounts s)).

(** ** The Transaction model ([models/Transaction.js]) *)

(** The pre-save hook: [`TXN${timestamp}${random}`]. *)
Definition generateTransactionId (env : Env) : string :=
  "TXN" ++ Js.String_of_N (now env)
        ++ Js.padStart 3 "0" (Js.String_of_nat (random1000 env)).

Definition is_Some_bool {A} (o : option A) : bool :=
  match o with Some _ => true | None => false end.

(** The paths of a transaction that a route gives a number to. *)
Inductive TransactionPath :=
| path_amount
| path_balanceAfter.

#[global] Instance TransactionPath_eq_dec : EqDecision TransactionPath.
Proof. solve_decision. Defined.

(** What [new Transaction({...})] is given by the routes. The routes give
    no [transactionId]. *)
Record TransactionFields := mkTransactionFields {
  f_transactionId : string;
  f_cooperativeBankId : ObjectId;
  f_fromAccount : option ObjectId;
  f_toAccount : option ObjectId;
  f_amount : Js.Value;
  f_transactionType : TransactionType;
  f_description : string;
  f_balanceAfter : Js.Value;
  f_referenceNumber : option string;
  f_processedBy : ObjectId
}.

Definition one_cent : Js.Number := Js.ofDecimal false 1 (-2).

(** The errors of a [Number] path that is required. *)
Definition validate_number (path : string) (required : string)
    (check : Js.Number -> list string) (v : Js.Value) : list string :=
  match castNumber v with
  | CastOk x => check x
  | CastNull => [required]
  | CastError => [castMessage v path]
  end.

(** [doc.validate()] for a new transaction. *)
Definition validate_transaction (f : TransactionFields) : list string :=
  ((if decide (f_transactionId f = "")
    then ["Path `transactionId` is required."] else [])
  ++ (if bool_decide (f_transactionType f <> deposit)
         && negb (is_Some_bool (f_fromAccount f))
      then ["Path `fromAccount` is required."] else [])
  ++ (if bool_decide (f_transactionType f = transfer)
         && negb (is_Some_bool (f_toAccount f))
      then ["Path `toAccount` is required."] else [])
  ++ validate_number "amount" "Amount is required"
       (fun x => if Js.leb one_cent x then []
                 else ["Amount must be greater than 0"])
       (f_amount f)
  ++ (if decide (f_description f = "")
      then ["Path `description` is required."] else [])
  ++ (if (String.length (f_description f) <=? 200)%nat then []
      else ["Description cannot exceed 200 characters"])
  ++ validate_number "balanceAfter" "Path `balanceAfter` is required."
       (fun _ => []) (f_balanceAfter f))%list.

Definition transactionId_taken (tid : string) (s : Store) : bool :=
  existsb (fun t => bool_decide (transactionId t = tid)) (transactions s).

(** The index on [referenceNumber] is unique and sparse: documents without
    the field are not indexed. *)
Definition referenceNumber_taken (r : option string) (s : Store) : bool :=
  match r with
  | None => false
  | Some _ => existsb (fun t => bool_decide (referenceNumber t = r))
                (transactions s)
  end.

(** [new Transaction({...}).save()]: validation, then the pre-save hook
    that makes the identifier of a document without one, then the insert
    with the schema defaults ([status], [processedAt]), which the unique
    indexes can refuse. *)
Definition Transaction_save (env : Env) (f : TransactionFields)
  : Db Transaction :=
  fun s =>
    match validate_transaction f,
          castNumber (f_amount f), castNumber (f_balanceAfter f) with
    | [], CastOk amount, CastOk balanceAfter =>
        let tid :=
          if decide (f_transactionId f = "") then generateTransactionId env
          else f_transactionId f in
        let doc :=
          mkTransaction tid (f_cooperativeBankId f) (f_fromAccount f)
            (f_toAccount f) amount (f_transactionType f) (f_description f)
            balanceAfter completed (f_referenceNumber f) (f_processedBy f)
            (now env) in
        if transactionId_taken tid s then
          (s, inl (DuplicateKey "transactionId"))
        else if referenceNumber_taken (f_referenceNumber f) s then
          (s, inl (DuplicateKey "referenceNumber"))
        else
          (mkStore (accounts s) (transactions s ++ [doc])%list
             (oplog s ++ [InsertTransaction tid])%list, inr doc)
    | errors, _, _ => (s, inl (ValidationError errors))
    end.

(** ** The transaction routes ([routes/transactions.js])

    The three handlers that write, as the file defines them and as a router
    that holds them serves them. What loading the file itself does is
    described in [RoutesModule] below. *)

(** [['admin', 'manager'].includes(req.user.role)] and the like. *)
Definition includes (roles : list Role) (r : Role) : bool :=
  bool_decide (r ∈ roles).

(** The validator chains of the request. A chain with [trim()] hands the
    trimmed string to the handler; the other values reach the handler as
    the body has them. *)
Definition validate_amount (amount : Js.Value) : bool :=
  Validator.isNumeric (Validator.toString amount)
  && Validator.isFloat one_cent (Validator.toString amount).

Definition sanitize_description (description : string) : option string :=
  let d := Js.trim description in
  if decide (d = "") then None
  else if (String.length d <=? 200)%nat then Some d else None.

Definition sanitize_referenceNumber (referenceNumber : option string)
  : option (option string) :=
  match referenceNumber with
  | None => Some None
  | Some r =>
      let r' := Js.trim r in
      if (String.length r' <=? 50)%nat then Some (Some r') else None
  end.

(** The check every handler of the file makes on the account it works on:
    [account.userId.toString() !== req.user._id.toString() &&
     !['admin', 'manager'].includes(req.user.role)]. *)
Definition accessDenied (user : User) (account : Account) : bool :=
  negb (userId account =? user_id user)%N
  && negb (includes [admin; manager] (role user)).

(** POST /deposit, the handler. *)
Definition depositHandler (env : Env) (user : User) (accountId : string)
    (amount : Js.Value) (description : string)
    (referenceNumber : option string) : Db Response :=
  let* found := Account_findById accountId in
  match found with
  | None => ret (errorResponse 404 "Account not found")
  | Some account =>
      if accessDenied user account then
        ret (errorResponse 403 "Access denied")
      else if negb (isActive account) then
        ret (errorResponse 400 "Account is deactivated")
      else
        let newBalance := Js.plus (Js.Num (balance account)) amount in
        let doc := assign_balance (account, []) newBalance in
        let doc := (with_lastTransactionDate doc.1 (now env), doc.2) in
        let* _ := Account_save (ObjectId_cast accountId) doc in
        let* transaction :=
          Transaction_save env
            (mkTransactionFields "" (userCooperativeBankId user)
               (Some (ObjectId_cast accountId)) None amount deposit
               description newBalance referenceNumber (user_id user)) in
        ret (successResponse 201 "Deposit successful"
               (TransactionData transaction newBalance))
  end.

(** POST /deposit: validators, then the handler under [asyncHandler]. *)
Definition depositRoute (env : Env) (user : User) (accountId : string)
    (amount : Js.Value) (description : string)
    (referenceNumber : option string) (s : Store) : Store * Response :=
  match Validator.isMongoId accountId && validate_amount amount,
        sanitize_description description,
        sanitize_referenceNumber referenceNumber with
  | true, Some description, Some referenceNumber =>
      asyncHandler
        (depositHandler env user accountId amount description referenceNumber)
        s
  | _, _, _ => (s, validationFailed)
  end.

(** [`Insufficient balance. Available: ${availableBalance}`] *)
Definition insufficientBalance (availableBalance : Js.Number) : string :=
  "Insufficient balance. Available: " ++ Js.toString availableBalance.

(** POST /withdraw, the handler. *)
Definition withdrawHandler (env : Env) (user : User) (accountId : string)
    (amount : Js.Value) (description : string) : Db Response :=
  let* found := Account_findById accountId in
  match found with
  | None => ret (errorResponse 404 "Account not found")
  | Some account =>
      if accessDenied user account then
        ret (errorResponse 403 "Access denied")
      else if negb (isActive account) then
        ret (errorResponse 400 "Account is deactivated")
      else
        let availableBalance :=
          Js.sub (balance account) (minimumBalance account) in
        if Js.greaterThan amount availableBalance then
          ret (errorResponse 400 (insufficientBalance availableBalance))
        else
          let newBalance := Js.minus (Js.Num (balance account)) amount in
          let doc := assign_balance (account, []) (Js.Num newBalance) in
          let doc := (with_lastTransactionDate doc.1 (now env), doc.2) in
          let* _ := Account_save (ObjectId_cast accountId) doc in
          let* transaction :=
            Transaction_save env
              (mkTransactionFields "" (userCooperativeBankId user)
                 (Some (ObjectId_cast accountId)) None amount withdrawal
                 description (Js.Num newBalance) None (user_id user)) in
          ret (successResponse 201 "Withdrawal successful"
                 (TransactionData transaction (Js.Num newBalance)))
  end.

Definition withdrawRoute (env : Env) (user : User) (accountId : string)
    (amount : Js.Value) (description : string) (s : Store)
  : Store * Response :=
  match Validator.isMongoId accountId && validate_amount amount,
        sanitize_description description with
  | true, Some description =>
      asyncHandler (withdrawHandler env user accountId amount description) s
  | _, _ => (s, validationFailed)
  end.

(** POST /transfer, the handler. The two identifiers are compared as the
    strings of the request; both documents are fetched before either is
    written; the three writes run in a session. *)
Definition transferHandler (env : Env) (user : User)
    (fromAccountId toAccountId : string) (amount : Js.Value)
    (description : string) : Db Response :=
  if String.eqb fromAccountId toAccountId then
    ret (errorResponse 400 "Cannot transfer to the same account")
  else
    let* foundFrom := Account_findById fromAccountId in
    let* foundTo := Account_findById toAccountId in
    match foundFrom, foundTo with
    | None, _ => ret (errorResponse 404 "From account not found")
    | Some _, None => ret (errorResponse 404 "To account not found")
    | Some fromAccount, Some toAccount =>
        if accessDenied user fromAccount then
          ret (errorResponse 403 "Access denied to from account")
        else if negb (isActive fromAccount) || negb (isActive toAccount) then
          ret (errorResponse 400 "One or both accounts are deactivated")
        else
          let availableBalance :=
            Js.sub (balance fromAccount) (minimumBalance fromAccount) in
          if Js.greaterThan amount availableBalance then
            ret (errorResponse 400 (insufficientBalance availableBalance))
          else
            withTransaction
              (let fromDoc :=
                 assign_balance (fromAccount, [])
                   (Js.Num (Js.minus (Js.Num (balance fromAccount)) amount)) in
               let fromDoc :=
                 (with_lastTransactionDate fromDoc.1 (now env), fromDoc.2) in
               let* _ := Account_save (ObjectId_cast fromAccountId) fromDoc in
               let toDoc :=
                 assign_balance (toAccount, [])
                   (Js.plus (Js.Num (balance toAccount)) amount) in
               let toDoc :=
                 (with_lastTransactionDate toDoc.1 (now env), toDoc.2) in
               let* _ := Account_save (ObjectId_cast toAccountId) toDoc in
               let* transaction :=
                 Transaction_save env
                   (mkTransactionFields "" (userCooperativeBankId user)
                      (Some (ObjectId_cast fromAccountId))
                      (Some (ObjectId_cast toAccountId)) amount transfer
                      description (Js.Num (balance fromDoc.1)) None
                      (user_id user)) in
               ret (successResponse 201 "Transfer successful"
                      (TransferData transaction (balance fromDoc.1)
                         (balance toDoc.1))))
    end.

Definition transferRoute (env : Env) (user : User)
    (fromAccountId toAccountId : string) (amount : Js.Value)
    (description : string) (s : Store) : Store * Response :=
  match Validator.isMongoId fromAccountId && Validator.isMongoId toAccountId
        && validate_amount amount,
        sanitize_description description with
  | true, Some description =>
      asyncHandler
        (transferHandler env user fromAccountId toAccountId amount description)
        s
  | _, _ => (s, validationFailed)
  end.

(** ** The account routes ([routes/accounts.js]) *)

(** [optional().isNumeric().isFloat({ min: 0 })] *)
Definition validate_optional_min0 (x : option Js.Value) : bool :=
  match x with
  | None => true
  | Some v =>
      Validator.isNumeric (Validator.toString v)
      && Validator.isFloat zero (Validator.toString v)
  end.

(** [optional().trim().notEmpty()] *)
Definition sanitize_optional_notEmpty (x : option string)
  : option (option string) :=
  match x with
  | None => Some None
  | Some v =>
      let t := Js.trim v in
      if decide (t = "") then None else Some (Some t)
  end.

(** [optional().matches(/^[0-9]{k}$/)] *)
Definition validate_optional_digits (k : nat) (x : option string) : bool :=
  match x with
  | None => true
  | Some v => Js.matches_digits k v
  end.

Definition sanitize_nomineeDetails (n : option NomineeDetails)
  : option (option NomineeDetails) :=
  match n with
  | None => Some None
  | Some d =>
      match sanitize_optional_notEmpty (name d),
            sanitize_optional_notEmpty (relationship d) with
      | Some name', Some relationship' =>
          if validate_optional_digits 10 (phone d)
             && validate_optional_digits 12 (aadharNumber d)
          then Some (Some (mkNominee name' relationship' (phone d)
                             (aadharNumber d)))
          else None
      | _, _ => None
      end
  end.

(** [x || fallback] for an optional value of the body. *)
Definition or_default (x : option Js.Value) (fallback : Js.Number)
  : Js.Value :=
  match x with
  | None => Js.Num fallback
  | Some v => if Js.truthy v then v else Js.Num fallback
  end.

(** A [Number] path of a new document: the cast value, or the default of
    the schema and a cast error. *)
Definition construct_number (path : AccountPath) (pathName : string)
    (schemaDefault : Js.Number) (v : Js.Value)
  : Js.Number * list (AccountPath * string) :=
  match castNumber v with
  | CastOk x => (x, [])
  | CastNull => (schemaDefault, [])
  | CastError => (schemaDefault, [(path, castMessage v pathName)])
  end.

(** [new Account({ userId, cooperativeBankId, accountType, minimumBalance,
    interestRate, nomineeDetails })] with the defaults of the schema; the
    document has no [accountNumber]. *)
Definition Account_new (owner bank : ObjectId) (t : AccountType)
    (minimum rate : Js.Value) (nominee : option NomineeDetails) : Document :=
  let m := construct_number path_minimumBalance "minimumBalance"
             (Js.of_Z 1000) minimum in
  let r := construct_number path_interestRate "interestRate"
             (Js.of_Z 4) rate in
  (mkAccount "" owner bank t zero m.1 r.1 true None "001" nominee,
   (m.2 ++ r.2)%list).

Definition Account_findOne_active (user : ObjectId) (t : AccountType)
  : Db bool :=
  fun s => (s, inr (hasActiveAccountOfType user t s)).

(** POST /, the handler. *)
Definition createAccountHandler (env : Env) (user : User)
    (accountType : AccountType) (minimumBalance interestRate : option Js.Value)
    (nomineeDetails : option NomineeDetails) : Db Response :=
  let* existingAccount := Account_findOne_active (user_id user) accountType in
  if existingAccount then
    ret (errorResponse 400
           ("You already have an active " ++ AccountType_name accountType
            ++ " account"))
  else
    let* account :=
      Account_create (newObjectId env)
        (Account_new (user_id user) (userCooperativeBankId user) accountType
           (or_default minimumBalance
              (if decide (accountType = savings) then Js.of_Z 1000 else zero))
           (or_default interestRate
              (if decide (accountType = savings) then Js.of_Z 4 else zero))
           nomineeDetails) in
    ret (successResponse 201 "Account created successfully"
           (AccountData account)).

Definition createAccountRoute (env : Env) (user : User)
    (accountType : AccountType) (minimumBalance interestRate : option Js.Value)
    (nomineeDetails : option NomineeDetails) (s : Store) : Store * Response :=
  match validate_optional_min0 minimumBalance,
        validate_optional_min0 interestRate,
        sanitize_nomineeDetails nomineeDetails with
  | true, true, Some nomineeDetails =>
      asyncHandler
        (createAccountHandler env user accountType minimumBalance interestRate
           nomineeDetails) s
  | _, _, _ => (s, validationFailed)
  end.

(** [Account.findByIdAndUpdate(id, updates, { new: true })] where [updates]
    holds [nomineeDetails] when the body has that key and nothing otherwise,
    for an [id] that [findById] has cast before. *)
Definition Account_findByIdAndUpdate (id : string)
    (updates : option NomineeDetails) : Db (option Account) :=
  fun s =>
    match accounts s !! ObjectId_cast id with
    | None => (s, inr None)
    | Some doc =>
        let doc' := match updates with
                    | None => doc
                    | Some n => with_nomineeDetails doc (Some n)
                    end in
        (mkStore (<[ObjectId_cast id := doc']> (accounts s)) (transactions s)
           (oplog s ++ [UpdateAccount (ObjectId_cast id)])%list,
         inr (Some doc'))
    end.

(** PUT /:accountId, the handler. *)
Definition updateAccountHandler (user : User) (accountId : string)
    (nomineeDetails : option NomineeDetails) : Db Response :=
  let* found := Account_findById accountId in
  match found with
  | None => ret (errorResponse 404 "Account not found")
  | Some account =>
      if accessDenied user account then
        ret (errorResponse 403 "Access denied")
      else
        let* updatedAccount :=
          Account_findByIdAndUpdate accountId nomineeDetails in
        ret (successResponse 200 "Account updated successfully"
               (match updatedAccount with
                | Some a => AccountData a
                | None => NoData
                end))
  end.

Definition updateAccountRoute (user : User) (accountId : string)
    (nomineeDetails : option NomineeDetails) (s : Store) : Store * Response :=
  match Validator.isMongoId accountId,
        sanitize_nomineeDetails nomineeDetails with
  | true, Some nomineeDetails =>
      asyncHandler (updateAccountHandler user accountId nomineeDetails) s
  | _, _ => (s, validationFailed)
  end.

(** PUT /:accountId/deactivate, the handler. *)
Definition deactivateHandler (user : User) (accountId : string)
  : Db Response :=
  let* found := Account_findById accountId in
  match found with
  | None => ret (errorResponse 404 "Account not found")
  | Some account =>
      if accessDenied user account then
        ret (errorResponse 403 "Access denied")
      else if negb (isActive account) then
        ret (errorResponse 400 "Account is already deactivated")
      else if Js.ltb zero (balance account) then
        ret (errorResponse 400
               ("Cannot deactivate account with remaining balance. "
                ++ "Please withdraw all funds first."))
      else
        let account := with_isActive account false in
        let* _ := Account_save (ObjectId_cast accountId) (account, []) in
        ret (successResponse 200 "Account deactivated successfully"
               (AccountData account))
  end.

Definition deactivateRoute (user : User) (accountId : string) (s : Store)
  : Store * Response :=
  if Validator.isMongoId accountId then
    asyncHandler (deactivateHandler user accountId) s
  else (s, validationFailed).

(** ** The operations of the system as one step function *)

Inductive Operation :=
| OpCreate (accountType : AccountType)
    (minimumBalance interestRate : option Js.Value)
    (nomineeDetails : option NomineeDetails)
| OpDeposit (accountId : string) (amount : Js.Value) (description : string)
    (referenceNumber : option string)
| OpWithdraw (accountId : string) (amount : Js.Value) (description : string)
| OpTransfer (fromAccountId toAccountId : string) (amount : Js.Value)
    (description : string)
| OpUpdate (accountId : string) (nomineeDetails : option NomineeDetails)
| OpDeactivate (accountId : string).

Definition run (env : Env) (user : User) (op : Operation) (s : Store)
  : Store * Response :=
  match op with
  | OpCreate t m i n => createAccountRoute env user t m i n s
  | OpDeposit a x d r => depositRoute env user a x d r s
  | OpWithdraw a x d => withdrawRoute env user a x d s
  | OpTransfer a b x d => transferRoute env user a b x d s
  | OpUpdate a n => updateAccountRoute user a n s
  | OpDeactivate a => deactivateRoute user a s
  end.

(** ** Loading a routes module

    What Node evaluates when [server.js] requires a routes file: the
    top-level statements in order. A route registration evaluates its
    argument expressions before the call; the identifiers inside the arrow
    functions are not looked up until a request runs them. *)

Module RoutesModule.

Inductive Method := GET | POST | PUT.

#[global] Instance Method_eq_dec : EqDecision Method.
Proof. solve_decision. Defined.

(** A top-level statement, with the identifiers it binds or reads. *)
Inductive Statement :=
| ConstRequire (names : list string) (module : string)
| ConstRouter (callee : string)
| Route (method : Method) (path : string) (reads : list string)
| ExportRouter.

Inductive Completion :=
| ReferenceError (identifier : string)
| Normal.

Record ModuleState := mkModuleState {
  scope : list string;
  routes : list (Method * string);
  exported : bool
}.

(** The first identifier of [reads] that the scope does not bind. *)
Fixpoint unbound (scope : list string) (reads : list string) : option string :=
  match reads with
  | [] => None
  | x :: reads' =>
      if bool_decide (x ∈ scope) then unbound scope reads' else Some x
  end.

Definition evalStatement (st : Statement) (m : ModuleState)
  : ModuleState * Completion :=
  match st with
  | ConstRequire names _ =>
      (mkModuleState (scope m ++ names)%list (routes m) (exported m), Normal)
  | ConstRouter callee =>
      match unbound (scope m) [callee] with
      | Some x => (m, ReferenceError x)
      | None =>
          (mkModuleState (scope m ++ ["router"])%list (routes m)
             (exported m), Normal)
      end
  | Route method path reads =>
      match unbound (scope m) ("router" :: reads) with
      | Some x => (m, ReferenceError x)
      | None =>
          (mkModuleState (scope m) (routes m ++ [(method, path)])%list
             (exported m), Normal)
      end
  | ExportRouter =>
      match unbound (scope m) ["router"] with
      | Some x => (m, ReferenceError x)
      | None => (mkModuleState (scope m) (routes m) true, Normal)
      end
  end.

Fixpoint evalModule (body : list Statement) (m : ModuleState)
  : ModuleState * Completion :=
  match body with
  | [] => (m, Normal)
  | st :: body' =>
      match evalStatement st m with
      | (m', Normal) => evalModule body' m'
      | (m', ReferenceError x) => (m', ReferenceError x)
      end
  end.

(** [require('./routes/x')] in [server.js]: the router the application can
    mount, when the module loaded and exported it. *)
Definition requireModule (body : list Statement)
  : option (list (Method * string)) :=
  match evalModule body (mkModuleState [] [] false) with
  | (m, Normal) => if exported m then Some (routes m) else None
  | (_, ReferenceError _) => None
  end.

(** A request reaches a handler of the module only through a route of the
    mounted router. *)
Definition served (body : list Statement) (method : Method) (path : string)
  : bool :=
  match requireModule body with
  | Some rs => bool_decide ((method, path) ∈ rs)
  | None => false
  end.

(** The names [routes/transactions.js] takes from [../middleware/auth]. *)
Definition transactions_auth_imports : list string :=
  ["authenticateToken"; "authorizeRoles"].

(** [routes/transactions.js], statement by statement. *)
Definition transactions_js : list Statement :=
  [ ConstRequire ["express"] "express";
    ConstRequire ["body"; "param"] "express-validator";
    ConstRequire ["Account"] "../models/Account";
    ConstRequire ["Transaction"] "../models/Transaction";
    ConstRequire transactions_auth_imports "../middleware/auth";
    ConstRequire ["handleValidationErrors"; "asyncHandler"; "successResponse";
                  "errorResponse"] "../middleware/validation";
    ConstRouter "express";
    Route POST "/deposit"
      ["authenticateToken"; "body"; "handleValidationErrors"; "asyncHandler"];
    Route POST "/withdraw"
      ["authenticateToken"; "body"; "handleValidationErrors"; "asyncHandler"];
    Route POST "/transfer"
      ["authenticateToken"; "body"; "handleValidationErrors"; "asyncHandler"];
    Route GET "/history/:accountId"
      ["authenticateToken"; "param"; "handleValidationErrors"; "asyncHandler"];
    Route GET "/:transactionId"
      ["authenticateToken"; "param"; "handleValidationErrors"; "asyncHandler"];
    Route GET "/admin/all-transactions"
      ["authenticateToken"; "authorizeRoles"; "authorizeBankAccess";
       "asyncHandler"];
    Route GET "/admin/stats"
      ["authenticateToken"; "authorizeRoles"; "authorizeBankAccess";
       "asyncHandler"];
    ExportRouter ].

(** The scope in which the registrations of the file are evaluated: every
    name a top-level [const] of the file binds. *)
Definition transactions_scope : list string :=
  scope (fst (evalModule (take 7 transactions_js)
                (mkModuleState [] [] false))).

End RoutesModule.

(** ** Reading one account: two routes of [routes/accounts.js]

    Both handlers are described from the point where [findById] has cast
    the parameter of the path to an ObjectId. *)

(** The answer of GET /:accountId/balance: a refusal, or the account number,
    the balance and the account type of the document. *)
Inductive BalanceAnswer :=
| BalanceRefused (code : nat) (m : string)
| BalanceOf (accountNumber : string) (balance : Js.Number)
    (accountType : AccountType).

(** GET /:accountId/balance, the handler. *)
Definition balanceRoute (user : User) (accountId : ObjectId) (s : Store)
  : BalanceAnswer :=
  match accounts s !! accountId with
  | None => BalanceRefused 404 "Account not found"
  | Some account =>
      if accessDenied user account then BalanceRefused 403 "Access denied"
      else BalanceOf (accountNumber account) (balance account)
             (accountType account)
  end.

(** The answer of GET /:accountId: a refusal, the document, or the
    [TypeError] of reading [_id] of [null] when [populate] found no bank
    for the account. *)
Inductive AccountAnswer :=
| AccountRefused (code : nat) (m : string)
| AccountFound (account : Account)
| AccountTypeError.

(** GET /:accountId, the handler; [banks] are the [_id]s of the
    [CooperativeBank] collection, which [populate('cooperativeBankId')]
    reads. *)
Definition accountRoute (banks : gset ObjectId) (user : User)
    (accountId : ObjectId) (s : Store) : AccountAnswer :=
  match accounts s !! accountId with
  | None => AccountRefused 404 "Account not found"
  | Some account =>
      if negb (userId account =? user_id user)%N
         && negb (includes [admin; manager; super_admin] (role user))
      then AccountRefused 403 "Access denied"
      else if decide (role user = super_admin) then AccountFound account
      else if decide (cooperativeBankId account ∈ banks) then
        if decide (cooperativeBankId account = userCooperativeBankId user)
        then AccountFound account
        else AccountRefused 403
               "Access denied - account belongs to different cooperative bank"
      else AccountTypeError
  end.

(** ** Scenarios used below *)

Definition acct (number : string) (owner bank : ObjectId) (bal minbal : Z)
  : Account :=
  mkAccount number owner bank savings (Js.of_Z bal) (Js.of_Z minbal)
    (Js.of_Z 4) true None "001" None.

Definition env0 : Env := mkEnv 1700000000000 7 100.
Definition env1 : Env := mkEnv 1700000000500 42 101.

(** The identifiers of accounts 1 and 2, as a request spells them. *)
Definition id1 : string := "000000000000000000000001".
Definition id2 : string := "000000000000000000000002".

(** Two accounts of bank 1. *)
Definition twoAccounts : Store :=
  mkStore (<[1%N := acct "000000000001" 10 1 5000 1000]>
           (<[2%N := acct "000000000002" 20 1 500 0]> ∅)) [] [].

Definition memberA : User := mkUser 10 member 1.
Definition memberB : User := mkUser 20 member 1.

(** Account 1 belongs to bank 1 and account 2 to bank 2. *)
Definition accountsOfTwoBanks : Store :=
  mkStore (<[1%N := acct "000000000001" 10 1 5000 1000]>
           (<[2%N := acct "000000000002" 20 2 500 0]> ∅)) [] [].

Definition memberOfBank2 : User := mkUser 20 member 2.
Definition adminOfBank2 : User := mkUser 30 admin 2.
Definition superAdmin : User := mkUser 40 super_admin 1.

(** An account at its minimum balance. *)
Definition atMinimum : Store :=
  mkStore (<[1%N := acct "000000000001" 10 1 1000 1000]> ∅) [] [].

(** An emptied account, and the same account with 250 left. *)
Definition emptied : Store :=
  mkStore (<[1%N := acct "000000000001" 10 1 0 0]> ∅) [] [].

Definition notEmptied : Store :=
  mkStore (<[1%N := acct "000000000001" 10 1 250 0]> ∅) [] [].

(** The store in which the owner has closed the emptied account 1. *)
Definition closedStore : Store := fst (deactivateRoute memberA id1 emptied).

Definition closedAccount : Account :=
  mkAccount "000000000001" 10 1 savings (Js.of_Z 0) (Js.of_Z 0) (Js.of_Z 4)
    false None "001" None.

(** An account that holds 1000.3 with a minimum balance of 1000. *)
Definition fraction : Store :=
  mkStore
    (<[1%N := mkAccount "000000000001" 10 1 savings
                (Js.ofDecimal false 10003 (-1)) (Js.of_Z 1000) (Js.of_Z 4)
                true None "001" None]>
     (<[2%N := acct "000000000002" 20 1 500 0]> ∅)) [] [].

(** The account updates of a log, in order. *)
Definition accountUpdates (log : list Write) : list ObjectId :=
  omap (fun w => match w with UpdateAccount i => Some i | _ => None end) log.

(** ** Invariants of the store *)

Definition balancesNonNegative (s : Store) : Prop :=
  map_Forall (fun _ a => Js.leb zero (balance a) = true) (accounts s).

Definition minimumsNonNegative (s : Store) : Prop :=
  map_Forall (fun _ a => Js.leb zero (minimumBalance a) = true) (accounts s).

(** A deactivated account holds no money. *)
Definition closedAccountsEmpty (s : Store) : Prop :=
  map_Forall (fun _ a => isActive a = false -> Js.eqb (balance a) zero = true)
    (accounts s).

(** What the validator chains of the two routes that take nominee details
    let through: a name and a relationship that are trimmed and not empty,
    a phone number of 10 digits, an Aadhaar number of 12 digits. *)
Record validNominee (n : NomineeDetails) : Prop := {
  valid_name : forall x, name n = Some x -> x <> "" /\ Js.trim x = x;
  valid_relationship :
    forall x, relationship n = Some x -> x <> "" /\ Js.trim x = x;
  valid_phone :
    forall x, phone n = Some x ->
      String.length x = 10 /\ Js.all_digits x = true;
  valid_aadharNumber :
    forall x, aadharNumber n = Some x ->
      String.length x = 12 /\ Js.all_digits x = true
}.

(** Every stored nominee passed a validator chain. *)
Definition nomineesValid (s : Store) : Prop :=
  map_Forall (fun _ a => forall n, nomineeDetails a = Some n -> validNominee n)
    (accounts s).

(** ** What a request can do to the collection of accounts

    A request rewrites at most one stored account; [run_change] shows that
    the routes do nothing else to the two collections. *)

(** What a request of [user] can make of a stored account [a]. *)
Inductive change (user : User) (a : Account) : Account -> Prop :=
| change_balance b date :
    accessDenied user a = false -> isActive a = true ->
    Js.leb zero b = true ->
    change user a (with_lastTransactionDate (with_balance a b) date)
| change_deactivate :
    accessDenied user a = false -> isActive a = true ->
    Js.eqb (balance a) zero = true ->
    change user a (with_isActive a false)
| change_nominee n :
    accessDenied user a = false ->
    (forall x, n = Some x -> validNominee x) ->
    change user a (with_nomineeDetails a n)
| change_nothing : change user a a.

(** The account that an operation works on, for the four routes that save
    one account outside a session. *)
Definition target (op : Operation) : option ObjectId :=
  match op with
  | OpDeposit a _ _ _ | OpWithdraw a _ _ | OpUpdate a _ | OpDeactivate a =>
      Some (ObjectId_cast a)
  | OpCreate _ _ _ _ | OpTransfer _ _ _ _ => None
  end.

(** The accounts an operation can move money of. *)
Definition moves (op : Operation) : list ObjectId :=
  match op with
  | OpDeposit a _ _ _ | OpWithdraw a _ _ => [ObjectId_cast a]
  | OpTransfer a b _ _ => [ObjectId_cast a; ObjectId_cast b]
  | OpCreate _ _ _ _ | OpUpdate _ _ | OpDeactivate _ => []
  end.

(** The number a string of decimal digits denotes, leading zeros allowed. *)
Definition parseDecimal (s : string) : option nat :=
  Nat.of_uint <$> NilEmpty.uint_of_string s.

Definition parseDecimalN (s : string) : option N :=
  N.of_uint <$> NilEmpty.uint_of_string s.

(** An account with a nominee, and what a request gives as a new one. *)
Definition ashaStored : NomineeDetails :=
  mkNominee (Some "Asha") (Some "sister") (Some "9876543210")
    (Some "123456789012").

Definition raviNominee : NomineeDetails :=
  mkNominee (Some "  Ravi ") (Some "brother") (Some "9876501234") None.

Definition raviStored : NomineeDetails :=
  mkNominee (Some "Ravi") (Some "brother") (Some "9876501234") None.

Definition withNominee : Store :=
  mkStore
    (<[1%N := mkAccount "000000000001" 10 1 savings (Js.of_Z 5000)
                (Js.of_Z 1000) (Js.of_Z 4) true None "001"
                (Some ashaStored)]>
     (<[2%N := acct "000000000002" 20 1 500 0]> ∅)) [] [].

(** A request answered as refused: status 400, 403, 404 or 500. *)
Definition refused (r : Response) : Prop :=
  statusCode r = 400 \/ statusCode r = 403 \/ statusCode r = 404
  \/ statusCode r = 500.

(** The validation error of the ledger insert, as the error middleware
    answers it. *)
Definition ledgerRefused (r : Response) : Prop :=
  statusCode r = 400 /\ success r = false /\ message r = "Validation Error".

(** ** Properties *)

#[local] Arguments Js.add : simpl never.
#[local] Arguments Js.sub : simpl never.
#[local] Arguments Js.ltb : simpl never.
#[local] Arguments Js.leb : simpl never.
#[local] Arguments Js.eqb : simpl never.
#[local] Arguments Js.of_Z : simpl never.
#[local] Arguments Js.ofDecimal : simpl never.
#[local] Arguments Js.toString : simpl never.
#[local] Arguments Js.StringToNumber : simpl never.
#[local] Arguments Js.plus : simpl never.
#[local] Arguments Js.minus : simpl never.
#[local] Arguments Js.greaterThan : simpl never.
#[local] Arguments castNumber : simpl never.
#[local] Arguments castMessage : simpl never.
#[local] Arguments validate_amount : simpl never.
#[local] Arguments Validator.isMongoId : simpl never.
#[local] Arguments checkForHex : simpl never.
#[local] Arguments castObjectIdMessage : simpl never.
#[local] Arguments ObjectId_cast : simpl never.
#[local] Arguments generateTransactionId : simpl never.

(** *** Validation and the two kinds of [save()] *)

Lemma validate_account_nil doc :
  validate_account [] doc = [] ->
  accountNumber doc <> "" /\ Js.leb zero (balance doc) = true
  /\ Js.leb zero (minimumBalance doc) = true
  /\ Js.leb zero (interestRate doc) = true /\ branchCode doc <> "".
Proof.
  unfold validate_account. cbn.
  unfold validate_accountNumber, validate_balance, validate_minimumBalance,
    validate_interestRate, validate_branchCode.
  destruct (decide (accountNumber doc = "")); [discriminate|].
  destruct (Js.leb zero (balance doc)); [|discriminate].
  destruct (Js.leb zero (minimumBalance doc)); [|discriminate].
  destruct (Js.leb zero (interestRate doc)); [|discriminate].
  destruct (decide (branchCode doc = "")); [discriminate|].
  auto.
Qed.

Lemma validate_account_invalid invalid doc :
  invalid <> [] -> validate_account invalid doc <> [].
Proof. destruct invalid; [contradiction|discriminate]. Qed.

Lemma generateAccountNumber_stored doc s :
  accountNumber doc <> "" -> generateAccountNumber doc s = doc.
Proof.
  intros H. unfold generateAccountNumber.
  destruct (decide (accountNumber doc = "")); [contradiction|reflexivity].
Qed.

(** A [save()] of a fetched document throws a validation error and writes
    nothing, or stores the document as it is in memory. *)
Lemma Account_save_cases id doc invalid s s' r :
  Account_save id (doc, invalid) s = (s', r) ->
  (s' = s /\ exists errors, r = inl (ValidationError errors))
  \/ (invalid = [] /\ validate_account [] doc = []
      /\ s' = mkStore (<[id := doc]> (accounts s)) (transactions s)
                (oplog s ++ [UpdateAccount id])%list
      /\ r = inr tt).
Proof.
  unfold Account_save. cbn [fst snd].
  destruct (validate_account invalid doc) eqn:E.
  - intros [= <- <-]. right.
    destruct invalid as [|i invalid];
      [|now destruct (validate_account_invalid (i :: invalid) doc)].
    destruct (validate_account_nil _ E) as (Hn & _).
    rewrite (generateAccountNumber_stored _ _ Hn). auto.
  - intros [= <- <-]. left. eauto.
Qed.

(** The routes give a new transaction no identifier, so its [save()]
    throws the validation error of the missing identifier. *)
Lemma Transaction_save_thrown env f s :
  f_transactionId f = "" ->
  Transaction_save env f s = (s, inl (ValidationError (validate_transaction f)))
  /\ exists errors,
       validate_transaction f
       = ("Path `transactionId` is required." :: errors).
Proof.
  intros H.
  assert (exists errors,
            validate_transaction f
            = ("Path `transactionId` is required." :: errors)) as [e He].
  { unfold validate_transaction. rewrite H. cbn. eauto. }
  split; [|eauto]. unfold Transaction_save. rewrite He. reflexivity.
Qed.

(** The routes give a new account no number, so its [save()] throws a
    validation error. *)
Lemma Account_create_thrown id owner bank t minimum rate nominee s :
  exists errors,
    Account_create id (Account_new owner bank t minimum rate nominee) s
    = (s, inl (ValidationError errors)).
Proof.
  unfold Account_create, Account_new, construct_number.
  destruct (castNumber minimum), (castNumber rate); cbn; eauto.
Qed.

(** *** Numbers *)

(** A number that is at least 0 and not above 0 is a zero. *)
Lemma Number_zero b :
  Js.leb zero b = true -> Js.ltb zero b = false -> Js.eqb b zero = true.
Proof. destruct b as [[|]|[|]| |[|] m e]; vm_compute; congruence. Qed.

Lemma Number_zero_leb b : Js.eqb b zero = true -> Js.leb zero b = true.
Proof. destruct b as [[|]|[|]| |[|] m e]; vm_compute; congruence. Qed.

Lemma Number_zero_ltb b : Js.eqb b zero = true -> Js.ltb zero b = false.
Proof. destruct b as [[|]|[|]| |[|] m e]; vm_compute; congruence. Qed.

(** No number is below itself. *)
Lemma Number_ltb_irrefl x : Js.ltb x x = false.
Proof.
  unfold Js.ltb, SFltb, SFcompare.
  destruct x as [[|]|[|]| |[|] m e]; try reflexivity;
    rewrite Z.compare_refl, Pos.compare_refl; reflexivity.
Qed.


(** [String(x)] is never the empty string. *)
Lemma append_not_empty a c b : (a ++ String c b)%string <> "".
Proof. destruct a; discriminate. Qed.

Lemma format_not_empty c rest n : Js.format c rest n <> "".
Proof.
  unfold Js.format.
  destruct ((Z.of_nat (String.length (String c rest)) <=? n)%Z
            && (n <=? 21)%Z); [discriminate|].
  destruct ((0 <? n)%Z && (n <=? 21)%Z); [apply append_not_empty|].
  destruct ((-6 <? n)%Z && (n <=? 0)%Z); [discriminate|].
  destruct rest; discriminate.
Qed.

Lemma toString_not_empty x : Js.toString x <> "".
Proof.
  unfold Js.toString.
  assert (forall m e, Js.toString_finite m e <> "") as H.
  { intros m e. unfold Js.toString_finite.
    destruct (match e with
              | Zneg p => (Npos m, (2 ^ Npos p)%N)
              | _ => ((Npos m * 2 ^ Z.to_N e)%N, 1%N)
              end) as [num den].
    destruct (Js.shortest _ _ _ _ _ _) as [s q].
    destruct (Js.dropZerosEnd _); [discriminate|apply format_not_empty]. }
  destruct x as [?|[|]| |[|] m e]; try discriminate. apply H.
Qed.

(** The sum of a number and an amount is not cast to [null]. *)
Lemma castNumber_plus b amt :
  castNumber (Js.plus (Js.Num b) amt) <> CastNull.
Proof.
  unfold castNumber, Js.plus. destruct amt as [x|t].
  - destruct (Js.isNaN _); discriminate.
  - destruct (String.eqb _ "") eqn:E.
    + apply String.eqb_eq in E. cbn [Js.ToString] in E.
      destruct (Js.toString b) eqn:Eb;
        [now destruct (toString_not_empty b)|discriminate].
    + destruct (Js.isNaN _); discriminate.
Qed.

Lemma castNumber_Num x : castNumber (Js.Num x) <> CastNull.
Proof. unfold castNumber. destruct (Js.isNaN x); discriminate. Qed.

(** An assignment to [balance] sets the cast value or marks the path. *)
Lemma assign_balance_cases account v :
  castNumber v <> CastNull ->
  (exists x, castNumber v = CastOk x
             /\ assign_balance (account, []) v = (with_balance account x, []))
  \/ (exists m, assign_balance (account, []) v = (account, [m])).
Proof.
  intros H. unfold assign_balance.
  destruct (castNumber v); [left; eauto|contradiction|right; eauto].
Qed.

(** *** The outcomes of each route *)

Lemma asyncHandler_findById id (k : option Account -> Db Response) s :
  asyncHandler (bind (Account_findById id) k) s
  = if checkForHex id
    then asyncHandler (k (accounts s !! ObjectId_cast id)) s
    else (s, errorMiddleware (QueryCastError (castObjectIdMessage id))).
Proof.
  unfold asyncHandler, bind, Account_findById.
  now destruct (checkForHex id).
Qed.

Lemma isHexPrefix_not_digit c :
  Validator.isHexPrefix c = true -> Validator.hexValue c = None.
Proof.
  destruct c as [[] [] [] [] [] [] [] []]; vm_compute; congruence.
Qed.

(** A string that casts to an ObjectId passes [isMongoId]. *)
Lemma checkForHex_isMongoId id :
  checkForHex id = true -> Validator.isMongoId id = true.
Proof.
  unfold checkForHex, Validator.isMongoId, Validator.isHexadecimal.
  intros H. apply andb_prop in H as [Hl Hh]. rewrite Hl, andb_true_r.
  assert (forall s, String.length s = 24 -> Validator.allHexadecimal s = true ->
                    negb (String.eqb s "") && Validator.allHexadecimal s = true)
    as Hs.
  { intros s L A. rewrite A. destruct s; [discriminate|reflexivity]. }
  apply Nat.eqb_eq in Hl.
  destruct id as [|a [|c t]]; try discriminate.
  destruct (Ascii.eqb_spec a "0") as [->|Ha].
  - destruct (Validator.isHexPrefix c) eqn:Hc.
    + apply isHexPrefix_not_digit in Hc. cbn in Hh. now rewrite Hc in Hh.
    + now apply Hs.
  - replace (match a with
             | "0"%char => if Validator.isHexPrefix c then t
                           else String a (String c t)
             | _ => String a (String c t)
             end) with (String a (String c t)); [now apply Hs|].
    destruct a as [[] [] [] [] [] [] [] []]; try reflexivity.
    now destruct Ha.
Qed.

Lemma refused_validationFailed : refused validationFailed.
Proof. left. reflexivity. Qed.

Lemma refused_errorMiddleware e : refused (errorMiddleware e).
Proof. destruct e; unfold refused; cbn; auto. Qed.

#[local] Hint Resolve refused_validationFailed refused_errorMiddleware : core.

Lemma refused_errorResponse code m :
  code = 400 \/ code = 403 \/ code = 404 -> refused (errorResponse code m).
Proof. unfold refused. cbn. tauto. Qed.

(** One fetched account is saved with a new balance, and then the ledger
    insert throws. *)
Lemma save_then_record env id account v f k s :
  castNumber v <> CastNull ->
  f_transactionId f = "" ->
  let doc := assign_balance (account, []) v in
  let out :=
    asyncHandler
      (let* _ := Account_save id
                   (with_lastTransactionDate doc.1 (now env), doc.2) in
       let* transaction := Transaction_save env f in
       ret (k transaction)) s in
  (fst out = s /\ ledgerRefused (snd out))
  \/ exists b,
       castNumber v = CastOk b
       /\ validate_account []
            (with_lastTransactionDate (with_balance account b) (now env)) = []
       /\ fst out
          = mkStore
              (<[id := with_lastTransactionDate (with_balance account b)
                         (now env)]> (accounts s))
              (transactions s) (oplog s ++ [UpdateAccount id])%list
       /\ ledgerRefused (snd out).
Proof.
  intros Hv Hf doc out. subst doc out. unfold asyncHandler, bind.
  destruct (Account_save id _ s) as [s1 [e|[]]] eqn:Hsave;
    apply Account_save_cases in Hsave
      as [(-> & errors & He)|(Hi & Hval & -> & Hr)]; try discriminate.
  - injection He as ->. left. repeat split.
  - destruct (assign_balance_cases account v Hv)
      as [(b & Hb & E)|(m & E)]; rewrite E in *; [|discriminate].
    cbn [fst snd] in *.
    rewrite (proj1 (Transaction_save_thrown env f _ Hf)).
    right. exists b. repeat split; assumption.
Qed.

(** A deposit is refused before any write, or refused by the validation of
    the account, or it writes the balance and the ledger insert throws. *)
Lemma depositRoute_cases env user accountId amt desc reference s :
  let out := depositRoute env user accountId amt desc reference s in
  (fst out = s /\ refused (snd out))
  \/ exists account b,
       accounts s !! ObjectId_cast accountId = Some account
       /\ accessDenied user account = false /\ isActive account = true
       /\ castNumber (Js.plus (Js.Num (balance account)) amt) = CastOk b
       /\ validate_account []
            (with_lastTransactionDate (with_balance account b) (now env)) = []
       /\ fst out
          = mkStore
              (<[ObjectId_cast accountId :=
                   with_lastTransactionDate (with_balance account b)
                     (now env)]> (accounts s))
              (transactions s)
              (oplog s ++ [UpdateAccount (ObjectId_cast accountId)])%list
       /\ ledgerRefused (snd out).
Proof.
  intros out. subst out. unfold depositRoute.
  destruct (Validator.isMongoId accountId && validate_amount amt);
    [|left; split; [reflexivity|auto]].
  destruct (sanitize_description desc) as [d|];
    [|left; split; [reflexivity|auto]].
  destruct (sanitize_referenceNumber reference) as [ref|];
    [|left; split; [reflexivity|auto]].
  unfold depositHandler.
  rewrite asyncHandler_findById.
  destruct (checkForHex accountId);
    [|left; split; [reflexivity|apply refused_errorMiddleware]].
  destruct (accounts s !! ObjectId_cast accountId) as [account|] eqn:Hacc;
    [|left; split; [reflexivity|right; right; left; reflexivity]].
  destruct (accessDenied user account) eqn:Hden;
    [left; split; [reflexivity|right; left; reflexivity]|].
  destruct (isActive account) eqn:Hact;
    [|left; split; [reflexivity|left; reflexivity]].
  cbn [negb].
  match goal with
  | |- context [Transaction_save env ?f] =>
      destruct (save_then_record env (ObjectId_cast accountId) account
                  (Js.plus (Js.Num (balance account)) amt) f
                  (fun t => successResponse 201 "Deposit successful"
                              (TransactionData t
                                 (Js.plus (Js.Num (balance account)) amt))) s
                  (castNumber_plus _ _) eq_refl)
        as [[E R]|(b & Hb & Hv & E & R)]
  end.
  - left. split; [exact E|]. left. apply R.
  - right. exists account, b. repeat split; try assumption; apply R.
Qed.

(** A withdrawal is refused before any write, or refused by the validation
    of the account, or it writes the balance and the ledger insert
    throws. *)
Lemma withdrawRoute_cases env user accountId amt desc s :
  let out := withdrawRoute env user accountId amt desc s in
  (fst out = s /\ refused (snd out))
  \/ exists account,
       let b := Js.minus (Js.Num (balance account)) amt in
       accounts s !! ObjectId_cast accountId = Some account
       /\ accessDenied user account = false /\ isActive account = true
       /\ Js.greaterThan amt
            (Js.sub (balance account) (minimumBalance account)) = false
       /\ validate_account []
            (with_lastTransactionDate (with_balance account b) (now env)) = []
       /\ fst out
          = mkStore
              (<[ObjectId_cast accountId :=
                   with_lastTransactionDate (with_balance account b)
                     (now env)]> (accounts s))
              (transactions s)
              (oplog s ++ [UpdateAccount (ObjectId_cast accountId)])%list
       /\ ledgerRefused (snd out).
Proof.
  intros out. subst out. unfold withdrawRoute.
  destruct (Validator.isMongoId accountId && validate_amount amt);
    [|left; split; [reflexivity|auto]].
  destruct (sanitize_description desc) as [d|];
    [|left; split; [reflexivity|auto]].
  unfold withdrawHandler.
  rewrite asyncHandler_findById.
  destruct (checkForHex accountId);
    [|left; split; [reflexivity|apply refused_errorMiddleware]].
  destruct (accounts s !! ObjectId_cast accountId) as [account|] eqn:Hacc;
    [|left; split; [reflexivity|right; right; left; reflexivity]].
  destruct (accessDenied user account) eqn:Hden;
    [left; split; [reflexivity|right; left; reflexivity]|].
  destruct (isActive account) eqn:Hact;
    [|left; split; [reflexivity|left; reflexivity]].
  cbn [negb].
  destruct (Js.greaterThan amt _) eqn:Hgt;
    [left; split; [reflexivity|left; reflexivity]|].
  match goal with
  | |- context [Transaction_save env ?f] =>
      destruct (save_then_record env (ObjectId_cast accountId) account
                  (Js.Num (Js.minus (Js.Num (balance account)) amt)) f
                  (fun t => successResponse 201 "Withdrawal successful"
                              (TransactionData t
                                 (Js.Num
                                    (Js.minus (Js.Num (balance account))
                                       amt)))) s
                  (castNumber_Num _) eq_refl)
        as [[E R]|(b & Hb & Hv & E & R)]
  end.
  - left. split; [exact E|]. left. apply R.
  - right. exists account. cbv zeta.
    assert (b = Js.minus (Js.Num (balance account)) amt) as ->.
    { unfold castNumber in Hb. destruct (Js.isNaN _); congruence. }
    repeat split; try assumption; apply R.
Qed.

(** A transfer never changes the two collections: it is refused before any
    write, or its session is aborted; the account updates that were sent
    in the session are the one of the source, then the one of the
    destination. *)
Lemma transferRoute_cases env user fromId toId amt desc s :
  let out := transferRoute env user fromId toId amt desc s in
  (fst out = s /\ refused (snd out))
  \/ (accounts (fst out) = accounts s
      /\ transactions (fst out) = transactions s
      /\ ledgerRefused (snd out)
      /\ exists sent,
           oplog (fst out) = (oplog s ++ sent)%list
           /\ (sent = []
               \/ sent = [UpdateAccount (ObjectId_cast fromId)]
               \/ sent = [UpdateAccount (ObjectId_cast fromId);
                          UpdateAccount (ObjectId_cast toId)])).
Proof.
  intros out. subst out. unfold transferRoute.
  destruct (Validator.isMongoId fromId && Validator.isMongoId toId
            && validate_amount amt);
    [|left; split; [reflexivity|auto]].
  destruct (sanitize_description desc) as [d|];
    [|left; split; [reflexivity|auto]].
  unfold transferHandler.
  destruct (String.eqb fromId toId);
    [left; split; [reflexivity|left; reflexivity]|].
  rewrite asyncHandler_findById.
  destruct (checkForHex fromId);
    [|left; split; [reflexivity|apply refused_errorMiddleware]].
  rewrite asyncHandler_findById.
  destruct (checkForHex toId);
    [|left; split; [reflexivity|apply refused_errorMiddleware]].
  destruct (accounts s !! ObjectId_cast fromId) as [fromDoc|] eqn:Hfrom;
    [|left; split; [reflexivity|right; right; left; reflexivity]].
  destruct (accounts s !! ObjectId_cast toId) as [toDoc|] eqn:Hto;
    [|left; split; [reflexivity|right; right; left; reflexivity]].
  destruct (accessDenied user fromDoc) eqn:Hden;
    [left; split; [reflexivity|right; left; reflexivity]|].
  destruct (negb (isActive fromDoc) || negb (isActive toDoc)) eqn:Hact;
    [left; split; [reflexivity|left; reflexivity]|].
  destruct (Js.greaterThan amt _) eqn:Hgt;
    [left; split; [reflexivity|left; reflexivity]|].
  right. unfold asyncHandler, withTransaction, bind.
  destruct (Account_save (ObjectId_cast fromId) _ s) as [s1 [e|[]]] eqn:H1.
  { destruct (assign_balance _ _) as [d1 i1].
    apply Account_save_cases in H1 as [(-> & errors & He)|(_ & _ & _ & Hr)];
      [|discriminate].
    injection He as ->. cbn. repeat split.
    exists []. rewrite app_nil_r. auto. }
  destruct (assign_balance (fromDoc, []) _) as [d1 i1].
  apply Account_save_cases in H1 as [(_ & errors & He)|(_ & _ & E1 & _)];
    [discriminate|].
  destruct (Account_save (ObjectId_cast toId) _ s1) as [s2 [e|[]]] eqn:H2.
  { destruct (assign_balance (toDoc, []) _) as [d2 i2].
    apply Account_save_cases in H2 as [(-> & errors & He)|(_ & _ & _ & Hr)];
      [|discriminate].
    injection He as ->. subst s1. cbn. repeat split. eauto. }
  destruct (assign_balance (toDoc, []) _) as [d2 i2].
  apply Account_save_cases in H2 as [(_ & errors & He)|(_ & _ & E2 & _)];
    [discriminate|].
  match goal with
  | |- context [Transaction_save env ?f s2] =>
      rewrite (proj1 (Transaction_save_thrown env f s2 eq_refl))
  end.
  subst s2 s1. cbn. repeat split.
  exists [UpdateAccount (ObjectId_cast fromId);
          UpdateAccount (ObjectId_cast toId)].
  rewrite <- app_assoc. auto.
Qed.

(** A creation never stores anything: the request is refused by the
    validators of the route, by the account of the same type that the
    caller has, or by the validation of the new document. *)
Lemma createAccountRoute_cases env user type minimum rate nominee s :
  let out := createAccountRoute env user type minimum rate nominee s in
  fst out = s /\ statusCode (snd out) = 400.
Proof.
  intros out. subst out. unfold createAccountRoute.
  destruct (validate_optional_min0 minimum); [|split; reflexivity].
  destruct (validate_optional_min0 rate); [|split; reflexivity].
  destruct (sanitize_nomineeDetails nominee) as [n|]; [|split; reflexivity].
  unfold asyncHandler, createAccountHandler, bind, Account_findOne_active.
  destruct (hasActiveAccountOfType (user_id user) type s);
    [split; reflexivity|].
  match goal with
  | |- context [Account_create ?id (Account_new ?o ?b ?t ?m ?r ?n) s] =>
      destruct (Account_create_thrown id o b t m r n s) as [errors ->]
  end.
  split; reflexivity.
Qed.

(** An update is refused before any write, or rewrites the account with
    the sanitized nominee details of the body, when the body has them. *)
Lemma updateAccountRoute_cases user accountId nominee s :
  let out := updateAccountRoute user accountId nominee s in
  (fst out = s /\ refused (snd out))
  \/ exists account nominee',
       sanitize_nomineeDetails nominee = Some nominee'
       /\ accounts s !! ObjectId_cast accountId = Some account
       /\ accessDenied user account = false
       /\ fst out
          = mkStore
              (<[ObjectId_cast accountId :=
                   match nominee' with
                   | None => account
                   | Some n => with_nomineeDetails account (Some n)
                   end]> (accounts s))
              (transactions s)
              (oplog s ++ [UpdateAccount (ObjectId_cast accountId)])%list
       /\ statusCode (snd out) = 200.
Proof.
  intros out. subst out. unfold updateAccountRoute.
  destruct (Validator.isMongoId accountId);
    [|left; split; [reflexivity|auto]].
  destruct (sanitize_nomineeDetails nominee) as [n|] eqn:Hsan;
    [|left; split; [reflexivity|auto]].
  unfold updateAccountHandler. rewrite asyncHandler_findById.
  destruct (checkForHex accountId);
    [|left; split; [reflexivity|apply refused_errorMiddleware]].
  unfold asyncHandler, bind, Account_findByIdAndUpdate.
  destruct (accounts s !! ObjectId_cast accountId) as [account|] eqn:Hacc;
    [|left; split; [reflexivity|right; right; left; reflexivity]].
  destruct (accessDenied user account) eqn:Hden;
    [left; split; [reflexivity|right; left; reflexivity]|].
  rewrite Hacc. right. exists account, n.
  repeat split; first [assumption|reflexivity].
Qed.

(** A deactivation is refused and writes nothing, or clears the flag of an
    active account whose balance is a zero. *)
Lemma deactivateRoute_cases user accountId s :
  let out := deactivateRoute user accountId s in
  (fst out = s /\ refused (snd out))
  \/ exists account,
       accounts s !! ObjectId_cast accountId = Some account
       /\ accessDenied user account = false /\ isActive account = true
       /\ Js.ltb zero (balance account) = false
       /\ validate_account [] (with_isActive account false) = []
       /\ fst out
          = mkStore
              (<[ObjectId_cast accountId := with_isActive account false]>
                 (accounts s))
              (transactions s)
              (oplog s ++ [UpdateAccount (ObjectId_cast accountId)])%list
       /\ snd out
          = successResponse 200 "Account deactivated successfully"
              (AccountData (with_isActive account false)).
Proof.
  intros out. subst out. unfold deactivateRoute.
  destruct (Validator.isMongoId accountId);
    [|left; split; [reflexivity|auto]].
  unfold deactivateHandler. rewrite asyncHandler_findById.
  destruct (checkForHex accountId);
    [|left; split; [reflexivity|apply refused_errorMiddleware]].
  unfold asyncHandler, bind.
  destruct (accounts s !! ObjectId_cast accountId) as [account|] eqn:Hacc;
    [|left; split; [reflexivity|right; right; left; reflexivity]].
  destruct (accessDenied user account) eqn:Hden;
    [left; split; [reflexivity|right; left; reflexivity]|].
  destruct (isActive account) eqn:Hact;
    [|left; split; [reflexivity|left; reflexivity]].
  cbn [negb].
  destruct (Js.ltb zero (balance account)) eqn:Hlt;
    [left; split; [reflexivity|left; reflexivity]|].
  destruct (Account_save _ _ s) as [s1 [e|[]]] eqn:Hsave;
    apply Account_save_cases in Hsave
      as [(-> & errors & He)|(_ & Hval & -> & Hr)]; try discriminate.
  - injection He as ->. left. split; [reflexivity|left; reflexivity].
  - right. exists account. repeat split; first [assumption|reflexivity].
Qed.

(** *** Strings and the validator chains *)

Lemma trimStart_head c s :
  Js.is_space c = false -> Js.trimStart (String c s) = String c s.
Proof. intros H. simpl. now rewrite H. Qed.

Lemma trimEnd_head c s :
  Js.is_space c = false -> Js.trimEnd (String c s) = String c (Js.trimEnd s).
Proof. intros H. simpl. rewrite H. now destruct (Js.trimEnd s). Qed.

Lemma trimEnd_idempotent s : Js.trimEnd (Js.trimEnd s) = Js.trimEnd s.
Proof.
  induction s as [|c s IH]; [reflexivity|].
  simpl. destruct (Js.trimEnd s) as [|c' t] eqn:E.
  - destruct (Js.is_space c) eqn:Hc; [reflexivity|].
    simpl. now rewrite Hc.
  - change (Js.trimEnd (String c (String c' t)) = String c (String c' t)).
    simpl. simpl in IH. rewrite IH. reflexivity.
Qed.

(** What [trimStart] leaves is empty or starts with a character that is
    not white space. *)
Lemma trimStart_cases s :
  Js.trimStart s = ""
  \/ exists c t, Js.trimStart s = String c t /\ Js.is_space c = false.
Proof.
  induction s as [|c s IH]; [now left|].
  simpl. destruct (Js.is_space c) eqn:Hc; [exact IH|].
  right. eauto.
Qed.

Lemma trim_idempotent s : Js.trim (Js.trim s) = Js.trim s.
Proof.
  unfold Js.trim.
  destruct (trimStart_cases s) as [E|(c & t & E & Hc)]; rewrite E.
  - reflexivity.
  - rewrite (trimEnd_head _ _ Hc), (trimStart_head _ _ Hc),
      (trimEnd_head _ _ Hc), trimEnd_idempotent.
    reflexivity.
Qed.

Lemma sanitize_optional_notEmpty_trimmed x y v :
  sanitize_optional_notEmpty x = Some y -> y = Some v ->
  v <> "" /\ Js.trim v = v.
Proof.
  unfold sanitize_optional_notEmpty. destruct x as [w|].
  - destruct (decide (Js.trim w = "")) as [|N]; [discriminate|].
    intros [= <-] [= <-]. split; [exact N|apply trim_idempotent].
  - intros [= <-]. discriminate.
Qed.

Lemma validate_optional_digits_length k x v :
  validate_optional_digits k x = true -> x = Some v ->
  String.length v = k /\ Js.all_digits v = true.
Proof.
  intros H ->. simpl in H. unfold Js.matches_digits in H.
  apply andb_prop in H as [Hl Hd]. split; [|exact Hd].
  now apply Nat.eqb_eq.
Qed.

(** Nominee details that pass the validator chain are valid. *)
Lemma sanitize_nomineeDetails_valid n n' x :
  sanitize_nomineeDetails n = Some n' -> n' = Some x -> validNominee x.
Proof.
  destruct n as [d|]; simpl; [|intros [= <-]; discriminate].
  destruct (sanitize_optional_notEmpty (name d)) as [a|] eqn:Ha;
    [|discriminate].
  destruct (sanitize_optional_notEmpty (relationship d)) as [b|] eqn:Hb;
    [|discriminate].
  destruct (validate_optional_digits 10 (phone d)) eqn:Hp; [|discriminate].
  destruct (validate_optional_digits 12 (aadharNumber d)) eqn:Hq;
    [|discriminate].
  simpl. intros [= <-] [= <-]. split; simpl; intros v Hv.
  - exact (sanitize_optional_notEmpty_trimmed _ _ _ Ha Hv).
  - exact (sanitize_optional_notEmpty_trimmed _ _ _ Hb Hv).
  - exact (validate_optional_digits_length _ _ _ Hp Hv).
  - exact (validate_optional_digits_length _ _ _ Hq Hv).
Qed.

(** *** Every request rewrites at most one account *)

Lemma run_change env user op s :
  transactions (fst (run env user op s)) = transactions s
  /\ (accounts (fst (run env user op s)) = accounts s
      \/ exists id a a',
           target op = Some id /\ accounts s !! id = Some a
           /\ change user a a'
           /\ accounts (fst (run env user op s)) = <[id := a']> (accounts s)).
Proof.
  destruct op as [t m i n|id x d ref|id x d|from to x d|id n|id];
    cbn [run target].
  - destruct (createAccountRoute_cases env user t m i n s) as [-> _]. auto.
  - destruct (depositRoute_cases env user id x d ref s)
      as [[-> _]|(a & b & Ha & Hden & Hact & _ & Hv & -> & _)]; [auto|].
    split; [reflexivity|]. right. exists (ObjectId_cast id), a.
    eexists. split; [reflexivity|]. split; [exact Ha|].
    split; [|reflexivity].
    apply change_balance; [assumption..|].
    now destruct (validate_account_nil _ Hv) as (_ & Hb & _).
  - destruct (withdrawRoute_cases env user id x d s)
      as [[-> _]|(a & Ha & Hden & Hact & _ & Hv & -> & _)]; [auto|].
    split; [reflexivity|]. right. exists (ObjectId_cast id), a.
    eexists. split; [reflexivity|]. split; [exact Ha|].
    split; [|reflexivity].
    apply change_balance; [assumption..|].
    now destruct (validate_account_nil _ Hv) as (_ & Hb & _).
  - destruct (transferRoute_cases env user from to x d s)
      as [[-> _]|(Ha & Ht & _)]; auto.
  - destruct (updateAccountRoute_cases user id n s)
      as [[-> _]|(a & n' & Hsan & Ha & Hden & -> & _)]; [auto|].
    split; [reflexivity|]. right. exists (ObjectId_cast id), a.
    destruct n' as [x|].
    + eexists. split; [reflexivity|]. split; [exact Ha|].
      split; [|reflexivity].
      apply change_nominee; [assumption|].
      intros y Hy. exact (sanitize_nomineeDetails_valid _ _ y Hsan Hy).
    + exists a. split; [reflexivity|]. split; [exact Ha|].
      split; [apply change_nothing|reflexivity].
  - destruct (deactivateRoute_cases user id s)
      as [[-> _]|(a & Ha & Hden & Hact & Hlt & Hv & -> & _)]; [auto|].
    split; [reflexivity|]. right. exists (ObjectId_cast id), a.
    eexists. split; [reflexivity|]. split; [exact Ha|].
    split; [|reflexivity].
    apply change_deactivate; [assumption..|].
    apply Number_zero; [|assumption].
    now destruct (validate_account_nil _ Hv) as (_ & Hb & _).
Qed.

(** What a request leaves under an identifier is what was there before,
    as it was or changed. *)
Lemma run_lookup env user op s i x :
  accounts (fst (run env user op s)) !! i = Some x ->
  exists x0, accounts s !! i = Some x0 /\ change user x0 x.
Proof.
  destruct (run_change env user op s)
    as [_ [->|(id & a & a' & _ & Ha & Hc & ->)]].
  - intros H. exists x. split; [assumption|apply change_nothing].
  - destruct (decide (i = id)) as [->|Hne].
    + rewrite lookup_insert_eq. intros [= <-]. eauto.
    + rewrite lookup_insert_ne by congruence.
      intros H. exists x. split; [assumption|apply change_nothing].
Qed.

(** No request removes an account. *)
Lemma run_keeps env user op s i a :
  accounts s !! i = Some a ->
  exists a',
    accounts (fst (run env user op s)) !! i = Some a' /\ change user a a'.
Proof.
  intros Hi.
  destruct (run_change env user op s)
    as [_ [->|(id & x & x' & _ & Hx & Hc & ->)]].
  - exists a. split; [assumption|apply change_nothing].
  - destruct (decide (i = id)) as [->|Hne].
    + rewrite lookup_insert_eq. exists x'. split; [reflexivity|]. congruence.
    + rewrite lookup_insert_ne by congruence.
      exists a. split; [assumption|apply change_nothing].
Qed.

(** A property of single accounts that no change breaks holds of every
    account after a request when it held before. *)
Lemma run_preserves (P : Account -> Prop) env user op s :
  (forall a a', change user a a' -> P a -> P a') ->
  map_Forall (fun _ => P) (accounts s) ->
  map_Forall (fun _ => P) (accounts (fst (run env user op s))).
Proof.
  intros Hp Hs i x Hi.
  destruct (run_lookup _ _ _ _ _ _ Hi) as (x0 & Hx0 & Hc).
  exact (Hp _ _ Hc (Hs _ _ Hx0)).
Qed.

(** *** What a change keeps *)

Lemma change_identity user a a' :
  change user a a' ->
  accountNumber a' = accountNumber a /\ userId a' = userId a
  /\ cooperativeBankId a' = cooperativeBankId a
  /\ accountType a' = accountType a
  /\ minimumBalance a' = minimumBalance a
  /\ interestRate a' = interestRate a.
Proof. destruct 1; repeat split. Qed.

Lemma change_inactive user a a' :
  change user a a' -> isActive a = false ->
  isActive a' = false /\ balance a' = balance a.
Proof. destruct 1; cbn; intros; split; congruence. Qed.

Lemma accessDenied_member user a :
  role user = member -> userId a <> user_id user ->
  accessDenied user a = true.
Proof.
  intros Hr Hu. unfold accessDenied. rewrite Hr.
  apply N.eqb_neq in Hu. rewrite Hu. reflexivity.
Qed.

Lemma change_member user a a' :
  role user = member -> userId a <> user_id user ->
  change user a a' -> a' = a.
Proof.
  intros Hr Hu Hc. pose proof (accessDenied_member _ _ Hr Hu) as Hd.
  destruct Hc; congruence.
Qed.

Lemma change_balance_non_negative user a a' :
  change user a a' ->
  Js.leb zero (balance a) = true -> Js.leb zero (balance a') = true.
Proof. destruct 1; cbn; auto. Qed.

Lemma change_closed user a a' :
  change user a a' ->
  (isActive a = false -> Js.eqb (balance a) zero = true) ->
  isActive a' = false -> Js.eqb (balance a') zero = true.
Proof. destruct 1; cbn; intros; auto; congruence. Qed.

Lemma change_nominee_valid user a a' :
  change user a a' ->
  (forall n, nomineeDetails a = Some n -> validNominee n) ->
  forall n, nomineeDetails a' = Some n -> validNominee n.
Proof. destruct 1; cbn; auto. Qed.

(** *** Transfers between accounts of two banks *)

(** C1. Member 10 of bank 1 asks to transfer 2000 from account 1 (bank 1,
    owned by the caller, balance 5000, minimum balance 1000) to account 2 of
    bank 2. No check of the handler looks at the banks: the request passes
    all of them and both account updates are sent in the session, source
    first. It is answered 400 only because the insert of the ledger entry
    fails validation, with the answer the same request gets when both
    accounts are of bank 1; the aborted session leaves both collections as
    they were. *)
Theorem transfer_across_tenants_reaches_the_writes :
  let request s :=
    transferRoute env0 memberA id1 id2 (Js.Num (Js.of_Z 2000)) "rent" s in
  cooperativeBankId <$> accounts accountsOfTwoBanks !! 1%N = Some 1%N
  /\ cooperativeBankId <$> accounts accountsOfTwoBanks !! 2%N = Some 2%N
  /\ accountUpdates (oplog (fst (request accountsOfTwoBanks))) = [1%N; 2%N]
  /\ snd (request accountsOfTwoBanks)
     = mkResponse 400 false "Validation Error"
         (ErrorList ["Path `transactionId` is required."])
  /\ snd (request accountsOfTwoBanks) = snd (request twoAccounts)
  /\ accounts (fst (request accountsOfTwoBanks))
     = accounts accountsOfTwoBanks
  /\ transactions (fst (request accountsOfTwoBanks)) = [].
Proof. vm_compute. repeat split. Qed.

(** *** Deposits and withdrawals are not atomic *)

(** C2. A deposit of 500 and a withdrawal of 1500 by the owner of account 1
    (balance 5000, minimum balance 1000): the handler saves the new balance
    outside any session, then the insert of the ledger entry throws. The
    answer is 400, the balance is written (5500, resp. 3500) and the ledger
    has no entry for it. *)
Theorem balance_written_when_ledger_insert_fails :
  let deposited :=
    depositRoute env0 memberA id1 (Js.Num (Js.of_Z 500)) "salary"
      (Some "REF-1") twoAccounts in
  let withdrawn :=
    withdrawRoute env0 memberA id1 (Js.Num (Js.of_Z 1500)) "rent"
      twoAccounts in
  snd deposited
  = mkResponse 400 false "Validation Error"
      (ErrorList ["Path `transactionId` is required."])
  /\ balance <$> accounts (fst deposited) !! 1%N = Some (Js.of_Z 5500)
  /\ transactions (fst deposited) = []
  /\ snd withdrawn
     = mkResponse 400 false "Validation Error"
         (ErrorList ["Path `transactionId` is required."])
  /\ balance <$> accounts (fst withdrawn) !! 1%N = Some (Js.of_Z 3500)
  /\ transactions (fst withdrawn) = [].
Proof. vm_compute. repeat split. Qed.

(** *** Who may move money *)

(** C3. The three handlers test the owner and the roles admin and manager
    and nothing else. (a) An admin of bank 2 is let through on account 1 of
    bank 1: the deposit and the withdrawal write its balance, the transfer
    sends both account updates before its session is aborted. (b) A super
    admin who does not own the account is answered 403 by all three, and
    nothing is written. *)
Theorem transaction_routes_ignore_tenant_and_super_admin :
  let five := Js.Num (Js.of_Z 500) in
  balance
    <$> accounts (fst (depositRoute env0 adminOfBank2 id1 five "fee" None
                         accountsOfTwoBanks)) !! 1%N
  = Some (Js.of_Z 5500)
  /\ balance
       <$> accounts (fst (withdrawRoute env0 adminOfBank2 id1 five "fee"
                            accountsOfTwoBanks)) !! 1%N
     = Some (Js.of_Z 4500)
  /\ accountUpdates
       (oplog (fst (transferRoute env0 adminOfBank2 id1 id2 five "fee"
                      accountsOfTwoBanks)))
     = [1%N; 2%N]
  /\ depositRoute env0 superAdmin id1 five "fee" None accountsOfTwoBanks
     = (accountsOfTwoBanks, mkResponse 403 false "Access denied" NoData)
  /\ withdrawRoute env0 superAdmin id1 five "fee" accountsOfTwoBanks
     = (accountsOfTwoBanks, mkResponse 403 false "Access denied" NoData)
  /\ transferRoute env0 superAdmin id1 id2 five "fee" accountsOfTwoBanks
     = (accountsOfTwoBanks,
        mkResponse 403 false "Access denied to from account" NoData).
Proof. vm_compute. repeat split. Qed.

(** *** Opening an account *)

(** C4. The first account of bank 1 and the first account of bank 2, each
    asked for in the empty store by a member of the bank: the new document
    has no account number when [save()] validates it, so the creation is
    answered 400 and nothing is stored. The hook that would number the
    document counts the accounts of its bank only, while the index on the
    account number spans all banks: for a first account of bank 2 in a
    store that holds account 000000000001 of bank 1 it makes the same
    number, which the index holds already. *)
Theorem first_account_creation_is_refused :
  createAccountRoute env0 memberA savings None None None emptyStore
  = (emptyStore,
     mkResponse 400 false "Validation Error"
       (ErrorList ["Path `accountNumber` is required."]))
  /\ createAccountRoute env1 memberOfBank2 savings None None None emptyStore
     = (emptyStore,
        mkResponse 400 false "Validation Error"
          (ErrorList ["Path `accountNumber` is required."]))
  /\ (let doc :=
        (Account_new 20 2 savings (Js.Num (Js.of_Z 1000)) (Js.Num (Js.of_Z 4))
           None).1 in
      cooperativeBankId <$> accounts atMinimum !! 1%N = Some 1%N
      /\ accountNumber (generateAccountNumber doc atMinimum) = "000000000001"
      /\ accountNumber_taken "000000000001" atMinimum = true).
Proof. vm_compute. repeat split. Qed.

(** *** Withdrawals *)

(** C5. A withdrawal of 4000 from account 1 (balance 5000, minimum balance
    1000) by its owner is within the available balance of 4000. It is not
    answered 201: the balance 1000 is written, the insert of the ledger
    entry throws and the answer is 400. The withdrawal of 1 from an account
    at its minimum balance of 1000 is refused with an available balance of
    0, and nothing is written. *)
Theorem withdrawal_within_available_balance_is_answered_400 :
  let out :=
    withdrawRoute env0 memberA id1 (Js.Num (Js.of_Z 4000)) "rent"
      twoAccounts in
  Js.greaterThan (Js.Num (Js.of_Z 4000))
    (Js.sub (Js.of_Z 5000) (Js.of_Z 1000)) = false
  /\ snd out
     = mkResponse 400 false "Validation Error"
         (ErrorList ["Path `transactionId` is required."])
  /\ balance <$> accounts (fst out) !! 1%N = Some (Js.of_Z 1000)
  /\ transactions (fst out) = []
  /\ withdrawRoute env0 memberA id1 (Js.Num (Js.of_Z 1)) "cash" atMinimum
     = (atMinimum,
        mkResponse 400 false "Insufficient balance. Available: 0" NoData).
Proof. vm_compute. repeat split. Qed.

(** *** Transfers *)

(** C6. Account 1 (balance 5000, minimum balance 1000) transfers 2000 to
    account 2 (balance 500) of the same bank, at the request of its owner:
    both account updates are sent, the insert of the ledger entry throws,
    the session is aborted. The answer is 400, the balances are still 5000
    and 500 and no transaction is stored. *)
Theorem transfer_scenario_is_aborted :
  transferRoute env0 memberA id1 id2 (Js.Num (Js.of_Z 2000)) "rent"
    twoAccounts
  = (mkStore (accounts twoAccounts) [] [UpdateAccount 1; UpdateAccount 2],
     mkResponse 400 false "Validation Error"
       (ErrorList ["Path `transactionId` is required."]))
  /\ balance <$> accounts twoAccounts !! 1%N = Some (Js.of_Z 5000)
  /\ balance <$> accounts twoAccounts !! 2%N = Some (Js.of_Z 500).
Proof. vm_compute. repeat split. Qed.



(** *** Balances never go below zero *)

(** C7. Account creation, deposit, withdrawal, transfer, account update and
    deactivation, whatever the caller and the request and however the
    request ends: from a store in which every balance and every minimum
    balance is non-negative, the store they leave has no negative balance. *)
Theorem every_operation_keeps_balances_non_negative env user op s :
  balancesNonNegative s ->
  minimumsNonNegative s ->
  balancesNonNegative (fst (run env user op s)).
Proof.
  intros Hb _. unfold balancesNonNegative.
  apply (run_preserves (fun a => Js.leb zero (balance a) = true));
    [|exact Hb].
  intros a a'. apply change_balance_non_negative.
Qed.

Lemma twoAccounts_non_negative :
  balancesNonNegative twoAccounts /\ minimumsNonNegative twoAccounts.
Proof.
  split; unfold balancesNonNegative, minimumsNonNegative, twoAccounts; simpl;
    repeat (apply map_Forall_insert_2; [vm_compute; reflexivity|]);
    apply map_Forall_empty.
Qed.

(** A withdrawal and a transfer of 4000 from an account that holds 5000
    with a minimum balance of 1000. *)
Lemma every_operation_keeps_balances_non_negative_witness :
  balancesNonNegative
    (fst (run env0 memberA
            (OpWithdraw id1 (Js.Num (Js.of_Z 4000)) "rent") twoAccounts))
  /\ balancesNonNegative
       (fst (run env0 memberA
               (OpTransfer id1 id2 (Js.Num (Js.of_Z 4000)) "rent")
               twoAccounts)).
Proof.
  split.
  - exact (every_operation_keeps_balances_non_negative env0 memberA
             (OpWithdraw id1 (Js.Num (Js.of_Z 4000)) "rent") twoAccounts
             (proj1 twoAccounts_non_negative)
             (proj2 twoAccounts_non_negative)).
  - exact (every_operation_keeps_balances_non_negative env0 memberA
             (OpTransfer id1 id2 (Js.Num (Js.of_Z 4000)) "rent") twoAccounts
             (proj1 twoAccounts_non_negative)
             (proj2 twoAccounts_non_negative)).
Defined.

(** *** Deactivation *)

(** C8. For a stored account, named by the 24 hexadecimal digits of its
    identifier, that the caller may work on and whose account number, branch
    code, minimum balance and interest rate pass the validators of the
    schema: the deactivation is answered 200 exactly when the account is
    active and its balance is a zero. Then the account is stored with its
    flag cleared and every other field as it was, nothing else changes, and
    the answer carries the stored document. Otherwise the answer is 400 and
    the store is as before; for an active account with a balance above zero
    the message says that the funds must be withdrawn first, for an
    inactive account that it is deactivated already. *)
Theorem deactivate_iff_active_and_zero_balance user accountId account s :
  checkForHex accountId = true ->
  accounts s !! ObjectId_cast accountId = Some account ->
  accessDenied user account = false ->
  accountNumber account <> "" -> branchCode account <> "" ->
  Js.leb zero (minimumBalance account) = true ->
  Js.leb zero (interestRate account) = true ->
  let out := deactivateRoute user accountId s in
  let closed :=
    mkAccount (accountNumber account) (userId account)
      (cooperativeBankId account) (accountType account) (balance account)
      (minimumBalance account) (interestRate account) false
      (lastTransactionDate account) (branchCode account)
      (nomineeDetails account) in
  (statusCode (snd out) = 200
   <-> isActive account = true /\ Js.eqb (balance account) zero = true)
  /\ (statusCode (snd out) = 200 ->
      accounts (fst out) = <[ObjectId_cast accountId := closed]> (accounts s)
      /\ transactions (fst out) = transactions s
      /\ snd out
         = mkResponse 200 true "Account deactivated successfully"
             (AccountData closed))
  /\ (statusCode (snd out) <> 200 ->
      fst out = s /\ statusCode (snd out) = 400
      /\ success (snd out) = false)
  /\ (isActive account = true -> Js.ltb zero (balance account) = true ->
      message (snd out)
      = "Cannot deactivate account with remaining balance. "
        ++ "Please withdraw all funds first.")
  /\ (isActive account = false ->
      message (snd out) = "Account is already deactivated").
Proof.
  intros Hid Ha Hden Hn Hbr Hmin Hrate out closed. subst out closed.
  unfold deactivateRoute. rewrite (checkForHex_isMongoId _ Hid).
  unfold asyncHandler, deactivateHandler, bind, Account_findById.
  rewrite Hid, Ha, Hden.
  destruct (isActive account) eqn:Hact; cbn [negb].
  2:{ cbn. repeat split; try discriminate; try tauto.
      intros [? _]. discriminate. }
  destruct (Js.ltb zero (balance account)) eqn:Hlt.
  { cbn. repeat split; try discriminate; try tauto.
    intros [_ E]. apply Number_zero_ltb in E. congruence. }
  unfold Account_save, validate_account. cbn.
  unfold validate_accountNumber, validate_balance, validate_minimumBalance,
    validate_interestRate, validate_branchCode. cbn.
  destruct (decide (accountNumber account = "")); [contradiction|].
  destruct (decide (branchCode account = "")); [contradiction|].
  rewrite Hmin, Hrate.
  destruct (Js.leb zero (balance account)) eqn:Hle; cbn.
  - unfold generateAccountNumber. cbn.
    destruct (decide (accountNumber account = "")); [contradiction|].
    cbn. repeat split; try discriminate; try tauto.
    now apply Number_zero.
  - repeat split; try discriminate; try tauto.
    intros [_ E]. apply Number_zero_leb in E. congruence.
Qed.

Lemma emptied_account :
  accounts emptied !! ObjectId_cast id1 = Some (acct "000000000001" 10 1 0 0).
Proof. vm_compute. reflexivity. Qed.

Lemma notEmptied_account :
  accounts notEmptied !! ObjectId_cast id1
  = Some (acct "000000000001" 10 1 250 0).
Proof. vm_compute. reflexivity. Qed.

(** The owner closes an emptied account, and is refused for an account that
    holds 250. *)
Lemma deactivate_iff_active_and_zero_balance_witness :
  statusCode (snd (deactivateRoute memberA id1 emptied)) = 200
  /\ (fst (deactivateRoute memberA id1 notEmptied) = notEmptied
      /\ statusCode (snd (deactivateRoute memberA id1 notEmptied)) = 400
      /\ success (snd (deactivateRoute memberA id1 notEmptied)) = false).
Proof.
  split.
  - apply (proj1 (deactivate_iff_active_and_zero_balance memberA id1
                    (acct "000000000001" 10 1 0 0) emptied eq_refl
                    emptied_account eq_refl ltac:(discriminate)
                    ltac:(discriminate) eq_refl eq_refl)).
    split; reflexivity.
  - apply (proj1 (proj2 (proj2
             (deactivate_iff_active_and_zero_balance memberA id1
                (acct "000000000001" 10 1 250 0) notEmptied eq_refl
                notEmptied_account eq_refl ltac:(discriminate)
                ltac:(discriminate) eq_refl eq_refl)))).
    vm_compute. discriminate.
Defined.

(** *** Loading the transaction routes *)

(** C10. [routes/transactions.js] binds [authenticateToken] and
    [authorizeRoles] from the auth middleware and nothing named
    [authorizeBankAccess]. The registrations of GET /admin/all-transactions
    and GET /admin/stats read that identifier, so each of them, evaluated in
    the scope of the file, throws a ReferenceError; loading the file stops
    there, no router is exported, and no request is served on either path. *)
Theorem transactions_admin_routes_unbound_identifier :
  RoutesModule.transactions_auth_imports
  = ["authenticateToken"; "authorizeRoles"]
  /\ ("authorizeBankAccess" ∉ RoutesModule.transactions_scope)
  /\ (forall path m,
        RoutesModule.scope m = RoutesModule.transactions_scope ->
        snd (RoutesModule.evalStatement
               (RoutesModule.Route RoutesModule.GET path
                  ["authenticateToken"; "authorizeRoles";
                   "authorizeBankAccess"; "asyncHandler"]) m)
        = RoutesModule.ReferenceError "authorizeBankAccess")
  /\ snd (RoutesModule.evalModule RoutesModule.transactions_js
            (RoutesModule.mkModuleState [] [] false))
     = RoutesModule.ReferenceError "authorizeBankAccess"
  /\ RoutesModule.requireModule RoutesModule.transactions_js = None
  /\ RoutesModule.served RoutesModule.transactions_js RoutesModule.GET
       "/admin/all-transactions" = false
  /\ RoutesModule.served RoutesModule.transactions_js RoutesModule.GET
       "/admin/stats" = false.
Proof.
  split; [reflexivity|].
  split; [apply (proj1 (bool_decide_eq_false _)); reflexivity|].
  split; [intros path m Hm; unfold RoutesModule.evalStatement; rewrite Hm;
          reflexivity|].
  repeat split; reflexivity.
Qed.

(** *** What no request does to an account *)

(** X11. No request removes an account or changes its number, its owner, its
    bank, its type, its minimum balance or its interest rate. *)
Theorem account_identity_never_changes env user op s i a :
  accounts s !! i = Some a ->
  exists a',
    accounts (fst (run env user op s)) !! i = Some a'
    /\ accountNumber a' = accountNumber a /\ userId a' = userId a
    /\ cooperativeBankId a' = cooperativeBankId a
    /\ accountType a' = accountType a
    /\ minimumBalance a' = minimumBalance a
    /\ interestRate a' = interestRate a.
Proof.
  intros Hi. destruct (run_keeps env user op s i a Hi) as (a' & Ha' & Hc).
  exists a'. split; [exact Ha'|]. exact (change_identity _ _ _ Hc).
Qed.

Lemma twoAccounts_second :
  accounts twoAccounts !! 2%N = Some (acct "000000000002" 20 1 500 0).
Proof. vm_compute. reflexivity. Qed.

(** The deposit of member 20 into the own account leaves its identity as
    it was. *)
Lemma account_identity_never_changes_witness :
  exists a',
    accounts
      (fst (run env0 memberB
              (OpDeposit id2 (Js.Num (Js.of_Z 50)) "gift" None) twoAccounts))
      !! 2%N = Some a'
    /\ accountNumber a' = "000000000002" /\ userId a' = 20%N
    /\ cooperativeBankId a' = 1%N /\ accountType a' = savings
    /\ minimumBalance a' = Js.of_Z 0 /\ interestRate a' = Js.of_Z 4.
Proof.
  exact (account_identity_never_changes env0 memberB
           (OpDeposit id2 (Js.Num (Js.of_Z 50)) "gift" None) twoAccounts 2
           (acct "000000000002" 20 1 500 0) twoAccounts_second).
Defined.

(** X12. A deactivated account is frozen: no request of any caller activates
    it again or changes its balance. *)
Theorem inactive_account_is_frozen env user op s i a :
  accounts s !! i = Some a -> isActive a = false ->
  exists a',
    accounts (fst (run env user op s)) !! i = Some a'
    /\ isActive a' = false /\ balance a' = balance a.
Proof.
  intros Hi Hact. destruct (run_keeps env user op s i a Hi) as (a' & Ha' & Hc).
  exists a'. split; [exact Ha'|]. exact (change_inactive _ _ _ Hc Hact).
Qed.

Lemma closedStore_account : accounts closedStore !! 1%N = Some closedAccount.
Proof. vm_compute. reflexivity. Qed.

(** A deposit into the closed account changes nothing. *)
Lemma inactive_account_is_frozen_witness :
  exists a',
    accounts
      (fst (run env1 memberA
              (OpDeposit id1 (Js.Num (Js.of_Z 50)) "gift" None) closedStore))
      !! 1%N = Some a'
    /\ isActive a' = false /\ balance a' = Js.of_Z 0.
Proof.
  exact (inactive_account_is_frozen env1 memberA
           (OpDeposit id1 (Js.Num (Js.of_Z 50)) "gift" None) closedStore 1
           closedAccount closedStore_account eq_refl).
Defined.

(** X13. A member can only add money to an account of somebody else:
    whatever a caller of role member requests, an account they do not own
    keeps its active flag, its nominee details and its owner, and its
    balance does not go down. *)
Theorem member_cannot_harm_other_accounts env user op s i a :
  role user = member ->
  accounts s !! i = Some a -> userId a <> user_id user ->
  exists a',
    accounts (fst (run env user op s)) !! i = Some a'
    /\ Js.ltb (balance a') (balance a) = false
    /\ isActive a' = isActive a
    /\ nomineeDetails a' = nomineeDetails a
    /\ userId a' = userId a.
Proof.
  intros Hr Hi Hu.
  destruct (run_keeps env user op s i a Hi) as (a' & Ha' & Hc).
  rewrite (change_member _ _ _ Hr Hu Hc) in Ha'.
  exists a. split; [exact Ha'|]. split; [apply Number_ltb_irrefl|]. auto.
Qed.

(** Member 10 asks to withdraw 100 from the account of member 20. *)
Lemma member_cannot_harm_other_accounts_witness :
  exists a',
    accounts
      (fst (run env0 memberA (OpWithdraw id2 (Js.Num (Js.of_Z 100)) "cash")
              twoAccounts)) !! 2%N = Some a'
    /\ Js.ltb (balance a') (Js.of_Z 500) = false
    /\ isActive a' = true
    /\ nomineeDetails a' = None
    /\ userId a' = 20%N.
Proof.
  exact (member_cannot_harm_other_accounts env0 memberA
           (OpWithdraw id2 (Js.Num (Js.of_Z 100)) "cash") twoAccounts 2
           (acct "000000000002" 20 1 500 0) eq_refl twoAccounts_second
           ltac:(vm_compute; discriminate)).
Defined.

(** X15. A request that is answered 403 or 404, or stopped by the validators
    of its route, has written nothing. *)
Theorem refused_requests_write_nothing env user op s :
  let out := run env user op s in
  statusCode (snd out) = 403 \/ statusCode (snd out) = 404
  \/ snd out = validationFailed ->
  fst out = s.
Proof.
  assert (T : forall r : Response,
             statusCode r = 403 \/ statusCode r = 404
             \/ r = validationFailed ->
             (statusCode r = 400 /\ message r = "Validation Error")
             \/ statusCode r = 200 -> False).
  { intros r [E|[E|E]] [[H M]|H]; subst; try congruence; discriminate. }
  destruct op as [t m i n|id x d ref|id x d|from to x d|id n|id];
    cbn [run]; cbv zeta.
  - now destruct (createAccountRoute_cases env user t m i n s).
  - destruct (depositRoute_cases env user id x d ref s)
      as [[E _]|(a & b & _ & _ & _ & _ & _ & _ & R1 & _ & R3)];
      [auto|]. intros H. destruct (T _ H). left. auto.
  - destruct (withdrawRoute_cases env user id x d s)
      as [[E _]|(a & _ & _ & _ & _ & _ & _ & R1 & _ & R3)];
      [auto|]. intros H. destruct (T _ H). left. auto.
  - destruct (transferRoute_cases env user from to x d s)
      as [[E _]|(_ & _ & (R1 & _ & R3) & _)];
      [auto|]. intros H. destruct (T _ H). left. auto.
  - destruct (updateAccountRoute_cases user id n s)
      as [[E _]|(a & n' & _ & _ & _ & _ & R)];
      [auto|]. intros H. destruct (T _ H). right. exact R.
  - destruct (deactivateRoute_cases user id s)
      as [[E _]|(a & _ & _ & _ & _ & _ & _ & R)];
      [auto|]. intros H. destruct (T _ H). right. rewrite R. reflexivity.
Qed.

(** Member 20 asks to withdraw from the account of member 10: 403, and the
    store is as before. *)
Lemma refused_requests_write_nothing_witness :
  statusCode
    (snd (run env0 memberB (OpWithdraw id1 (Js.Num (Js.of_Z 10)) "cash")
            twoAccounts)) = 403
  /\ fst (run env0 memberB (OpWithdraw id1 (Js.Num (Js.of_Z 10)) "cash")
            twoAccounts) = twoAccounts.
Proof.
  assert (E : statusCode
                (snd (run env0 memberB
                        (OpWithdraw id1 (Js.Num (Js.of_Z 10)) "cash")
                        twoAccounts)) = 403) by (vm_compute; reflexivity).
  split; [exact E|].
  exact (refused_requests_write_nothing env0 memberB
           (OpWithdraw id1 (Js.Num (Js.of_Z 10)) "cash") twoAccounts
           (or_introl E)).
Defined.

(** X19. A transfer that is not answered 201 leaves the accounts and the
    ledger as they were: the session of the route discards the writes
    already staged. *)
Theorem transfer_all_or_nothing
    env user fromAccountId toAccountId amt desc s s' r :
  transferRoute env user fromAccountId toAccountId amt desc s = (s', r) ->
  statusCode r <> 201 ->
  accounts s' = accounts s /\ transactions s' = transactions s.
Proof.
  intros H _.
  destruct (transferRoute_cases env user fromAccountId toAccountId amt desc s)
    as [[E _]|(Ha & Ht & _)]; rewrite H in *; cbn [fst] in *.
  - now subst s'.
  - auto.
Qed.

(** The transfer of 2000 from account 1 to account 2, whose session is
    aborted. *)
Lemma transfer_all_or_nothing_witness :
  accounts
    (fst (transferRoute env0 memberA id1 id2 (Js.Num (Js.of_Z 2000)) "rent"
            twoAccounts)) = accounts twoAccounts
  /\ transactions
       (fst (transferRoute env0 memberA id1 id2 (Js.Num (Js.of_Z 2000))
               "rent" twoAccounts)) = transactions twoAccounts.
Proof.
  exact (transfer_all_or_nothing env0 memberA id1 id2
           (Js.Num (Js.of_Z 2000)) "rent" twoAccounts _ _
           (surjective_pairing _) ltac:(vm_compute; discriminate)).
Defined.

(** *** Invariants that every request keeps *)

(** X1. A deactivated account holds no money, and no request to the account
    routes or to the deposit, withdrawal and transfer routes breaks this:
    when every inactive account of a store has a balance of zero, the same
    holds of the store that such a request leaves. *)
Theorem closed_accounts_hold_no_money env user op s :
  closedAccountsEmpty s -> closedAccountsEmpty (fst (run env user op s)).
Proof.
  unfold closedAccountsEmpty.
  apply (run_preserves
           (fun a => isActive a = false -> Js.eqb (balance a) zero = true)).
  intros a a'. apply change_closed.
Qed.

Lemma emptied_closedAccountsEmpty : closedAccountsEmpty emptied.
Proof.
  unfold closedAccountsEmpty, emptied. simpl.
  apply map_Forall_insert_2; [discriminate|apply map_Forall_empty].
Qed.

(** The owner closes the emptied account 1. *)
Lemma closed_accounts_hold_no_money_witness :
  closedAccountsEmpty (fst (run env0 memberA (OpDeactivate id1) emptied))
  /\ accounts (fst (run env0 memberA (OpDeactivate id1) emptied)) !! 1%N
     = Some closedAccount.
Proof.
  split.
  - exact (closed_accounts_hold_no_money env0 memberA (OpDeactivate id1)
             emptied emptied_closedAccountsEmpty).
  - vm_compute. reflexivity.
Defined.

(** X6. Stored nominee details stay valid: when the nominee details of every
    account of a store have a trimmed, non-empty name and relationship, a
    phone number of 10 digits and an Aadhaar number of 12 digits, where
    they have them, the same holds of the store that a request leaves. *)
Theorem nominee_details_stay_valid env user op s :
  nomineesValid s -> nomineesValid (fst (run env user op s)).
Proof.
  unfold nomineesValid.
  apply (run_preserves
           (fun a => forall n, nomineeDetails a = Some n -> validNominee n)).
  intros a a'. apply change_nominee_valid.
Qed.

Lemma withNominee_valid : nomineesValid withNominee.
Proof.
  unfold nomineesValid, withNominee. simpl.
  repeat (apply map_Forall_insert_2; [|]); [| |apply map_Forall_empty].
  - intros n [= <-].
    split; intros x [= <-]; vm_compute; split; congruence.
  - discriminate.
Qed.

(** The owner names a new nominee with spaces around the name. *)
Lemma nominee_details_stay_valid_witness :
  nomineesValid
    (fst (run env0 memberA (OpUpdate id1 (Some raviNominee)) withNominee))
  /\ nomineeDetails
       <$> accounts
             (fst (run env0 memberA (OpUpdate id1 (Some raviNominee))
                     withNominee)) !! 1%N
     = Some (Some raviStored).
Proof.
  split.
  - exact (nominee_details_stay_valid env0 memberA
             (OpUpdate id1 (Some raviNominee)) withNominee withNominee_valid).
  - vm_compute. reflexivity.
Defined.

(** *** Where balances change *)

(** X16. A request changes the balance of no account but the ones it moves
    money of: a creation, an update and a deactivation change no balance at
    all, a deposit and a withdrawal none but the one of the account they
    name, a transfer none but the ones of its source and its
    destination. *)
Theorem only_moved_accounts_change_balance env user op s i a :
  accounts s !! i = Some a ->
  i ∉ moves op ->
  exists a',
    accounts (fst (run env user op s)) !! i = Some a'
    /\ balance a' = balance a.
Proof.
  intros Hi Hm.
  destruct op as [t m r n|id x d ref|id x d|from to x d|id n|id];
    cbn [run moves] in *.
  - destruct (createAccountRoute_cases env user t m r n s) as [-> _]. eauto.
  - destruct (depositRoute_cases env user id x d ref s)
      as [[-> _]|(a0 & b & _ & _ & _ & _ & _ & -> & _)]; [eauto|].
    cbn. rewrite lookup_insert_ne; [eauto|].
    intros <-. apply Hm. left.
  - destruct (withdrawRoute_cases env user id x d s)
      as [[-> _]|(a0 & _ & _ & _ & _ & _ & -> & _)]; [eauto|].
    cbn. rewrite lookup_insert_ne; [eauto|].
    intros <-. apply Hm. left.
  - destruct (transferRoute_cases env user from to x d s)
      as [[-> _]|(-> & _)]; eauto.
  - destruct (updateAccountRoute_cases user id n s)
      as [[-> _]|(a0 & n' & _ & Ha0 & _ & -> & _)]; [eauto|].
    cbn. destruct (decide (i = ObjectId_cast id)) as [->|Hne].
    + rewrite lookup_insert_eq. eexists. split; [reflexivity|].
      rewrite Hi in Ha0. injection Ha0 as <-. now destruct n'.
    + rewrite lookup_insert_ne by congruence. eauto.
  - destruct (deactivateRoute_cases user id s)
      as [[-> _]|(a0 & Ha0 & _ & _ & _ & _ & -> & _)]; [eauto|].
    cbn. destruct (decide (i = ObjectId_cast id)) as [->|Hne].
    + rewrite lookup_insert_eq. eexists. split; [reflexivity|].
      rewrite Hi in Ha0. now injection Ha0 as <-.
    + rewrite lookup_insert_ne by congruence. eauto.
Qed.

Lemma second_not_moved amt desc reference :
  2%N ∉ moves (OpDeposit id1 amt desc reference).
Proof.
  cbn [moves]. rewrite list_elem_of_singleton. vm_compute. discriminate.
Qed.

(** A deposit into account 1 leaves the balance of account 2 at 500. *)
Lemma only_moved_accounts_change_balance_witness :
  exists a',
    accounts
      (fst (run env0 memberA
              (OpDeposit id1 (Js.Num (Js.of_Z 500)) "salary" None)
              twoAccounts)) !! 2%N = Some a'
    /\ balance a' = Js.of_Z 500.
Proof.
  exact (only_moved_accounts_change_balance env0 memberA
           (OpDeposit id1 (Js.Num (Js.of_Z 500)) "salary" None) twoAccounts
           2 (acct "000000000002" 20 1 500 0) twoAccounts_second
           (second_not_moved _ _ _)).
Defined.

(** *** The available balance *)

(** X29. A withdrawal of more than the available balance, which is the
    balance minus the minimum balance, is answered 400 with a message that
    gives the available balance, and writes nothing. *)
Theorem withdrawal_beyond_available_balance_is_refused
    env user accountId amt desc s account :
  checkForHex accountId = true ->
  validate_amount amt = true ->
  sanitize_description desc <> None ->
  accounts s !! ObjectId_cast accountId = Some account ->
  accessDenied user account = false ->
  isActive account = true ->
  let available := Js.sub (balance account) (minimumBalance account) in
  Js.greaterThan amt available = true ->
  withdrawRoute env user accountId amt desc s
  = (s, mkResponse 400 false
          ("Insufficient balance. Available: " ++ Js.toString available)
          NoData).
Proof.
  intros Hid Hamt Hd Ha Hden Hact available Hgt. subst available.
  unfold withdrawRoute. rewrite (checkForHex_isMongoId _ Hid), Hamt.
  destruct (sanitize_description desc) as [d|]; [|contradiction].
  cbn [andb]. unfold withdrawHandler.
  rewrite asyncHandler_findById, Hid, Ha, Hden, Hact. cbn [negb].
  rewrite Hgt. reflexivity.
Qed.

Lemma atMinimum_account :
  accounts atMinimum !! ObjectId_cast id1
  = Some (acct "000000000001" 10 1 1000 1000).
Proof. vm_compute. reflexivity. Qed.

(** A withdrawal of 1 from an account at its minimum balance of 1000. *)
Lemma withdrawal_beyond_available_balance_is_refused_witness :
  withdrawRoute env0 memberA id1 (Js.Num (Js.of_Z 1)) "cash" atMinimum
  = (atMinimum,
     mkResponse 400 false "Insufficient balance. Available: 0" NoData).
Proof.
  exact (withdrawal_beyond_available_balance_is_refused env0 memberA id1
           (Js.Num (Js.of_Z 1)) "cash" atMinimum
           (acct "000000000001" 10 1 1000 1000) eq_refl eq_refl
           ltac:(vm_compute; discriminate) atMinimum_account eq_refl eq_refl
           eq_refl).
Defined.

(** X18. A transfer of more than the available balance of its source is
    answered 400 with a message that gives the available balance, and
    neither writes nor sends anything. *)
Theorem transfer_beyond_available_balance_is_refused
    env user fromAccountId toAccountId amt desc s fromDoc toDoc :
  checkForHex fromAccountId = true ->
  checkForHex toAccountId = true ->
  validate_amount amt = true ->
  sanitize_description desc <> None ->
  fromAccountId <> toAccountId ->
  accounts s !! ObjectId_cast fromAccountId = Some fromDoc ->
  accounts s !! ObjectId_cast toAccountId = Some toDoc ->
  accessDenied user fromDoc = false ->
  isActive fromDoc = true -> isActive toDoc = true ->
  let available := Js.sub (balance fromDoc) (minimumBalance fromDoc) in
  Js.greaterThan amt available = true ->
  transferRoute env user fromAccountId toAccountId amt desc s
  = (s, mkResponse 400 false
          ("Insufficient balance. Available: " ++ Js.toString available)
          NoData).
Proof.
  intros Hf Ht Hamt Hd Hne Hfrom Hto Hden Hact Hact' available Hgt.
  subst available.
  unfold transferRoute.
  rewrite (checkForHex_isMongoId _ Hf), (checkForHex_isMongoId _ Ht), Hamt.
  destruct (sanitize_description desc) as [d|]; [|contradiction].
  cbn [andb]. unfold transferHandler.
  apply String.eqb_neq in Hne. rewrite Hne.
  rewrite asyncHandler_findById, Hf, asyncHandler_findById, Ht, Hfrom, Hto.
  rewrite Hden, Hact, Hact'. cbn [negb orb].
  rewrite Hgt. reflexivity.
Qed.

Lemma fraction_accounts :
  accounts fraction !! ObjectId_cast id1
  = Some (mkAccount "000000000001" 10 1 savings
            (Js.ofDecimal false 10003 (-1)) (Js.of_Z 1000) (Js.of_Z 4) true
            None "001" None)
  /\ accounts fraction !! ObjectId_cast id2
     = Some (acct "000000000002" 20 1 500 0).
Proof. vm_compute. split; reflexivity. Qed.

(** A transfer of 0.3 from an account that holds 1000.3 with a minimum
    balance of 1000: in binary64 the difference is below 0.3. *)
Lemma transfer_beyond_available_balance_is_refused_witness :
  transferRoute env0 memberA id1 id2 (Js.Num (Js.ofDecimal false 3 (-1)))
    "rent" fraction
  = (fraction,
     mkResponse 400 false
       "Insufficient balance. Available: 0.2999999999999545" NoData).
Proof.
  exact (transfer_beyond_available_balance_is_refused env0 memberA id1 id2
           (Js.Num (Js.ofDecimal false 3 (-1))) "rent" fraction _ _
           eq_refl eq_refl eq_refl ltac:(vm_compute; discriminate)
           ltac:(discriminate) (proj1 fraction_accounts)
           (proj2 fraction_accounts) eq_refl eq_refl eq_refl eq_refl).
Defined.

(** *** Decimal strings *)

Lemma uint_of_string_zeros m s :
  NilEmpty.uint_of_string (Js.repeat_char "0" m ++ s)
  = Nat.iter m (option_map Decimal.D0) (NilEmpty.uint_of_string s).
Proof.
  induction m as [|m IH]; [reflexivity|].
  simpl. now rewrite IH.
Qed.

Lemma of_uint_zeros m d :
  Nat.of_uint (Nat.iter m Decimal.D0 d) = Nat.of_uint d.
Proof. induction m as [|m IH]; [reflexivity|]. simpl. exact IH. Qed.

Lemma iter_option_map_Some {A} (f : A -> A) m x :
  Nat.iter m (option_map f) (Some x) = Some (Nat.iter m f x).
Proof. induction m as [|m IH]; [reflexivity|]. simpl. now rewrite IH. Qed.

(** Padding with zeros does not change the number a decimal string
    denotes. *)
Lemma parseDecimal_padStart k n :
  parseDecimal (Js.padStart k "0" (Js.String_of_nat n)) = Some n.
Proof.
  unfold parseDecimal, Js.padStart, Js.String_of_nat.
  rewrite uint_of_string_zeros, NilEmpty.usu, iter_option_map_Some.
  simpl. now rewrite of_uint_zeros, DecimalNat.Unsigned.of_to.
Qed.

Lemma parseDecimalN_String_of_N n :
  parseDecimalN (Js.String_of_N n) = Some n.
Proof.
  unfold parseDecimalN, Js.String_of_N.
  rewrite NilEmpty.usu. simpl. now rewrite DecimalN.Unsigned.of_to.
Qed.

Lemma length_append (a b : string) :
  String.length (a ++ b) = String.length a + String.length b.
Proof.
  induction a as [|c a IH]; [reflexivity|].
  change (String c a ++ b) with (String c (a ++ b)).
  simpl. congruence.
Qed.

Lemma length_repeat_char c n : String.length (Js.repeat_char c n) = n.
Proof. induction n; simpl; congruence. Qed.

Lemma append_inj_prefix (p a b : string) : p ++ a = p ++ b -> a = b.
Proof.
  induction p as [|c p IH]; [auto|].
  change (String c (p ++ a) = String c (p ++ b) -> a = b).
  intros H. injection H as H. auto.
Qed.

Lemma append_inj_suffix (a a' p p' : string) :
  String.length p = String.length p' ->
  a ++ p = a' ++ p' -> a = a' /\ p = p'.
Proof.
  intros L. revert a'. induction a as [|c a IH]; intros [|c' a'] H.
  - auto.
  - exfalso. apply (f_equal String.length) in H.
    change ("" ++ p) with p in H. rewrite length_append in H. simpl in H. lia.
  - exfalso. apply (f_equal String.length) in H.
    change ("" ++ p') with p' in H. rewrite length_append in H. simpl in H.
    lia.
  - change (String c (a ++ p) = String c' (a' ++ p')) in H.
    injection H as -> H. destruct (IH _ H) as [-> ->]. auto.
Qed.

Lemma random_suffix_length r :
  r < 1000 -> String.length (Js.padStart 3 "0" (Js.String_of_nat r)) = 3.
Proof.
  intros H.
  assert (A : forallb
                (fun r => (String.length
                             (Js.padStart 3 "0" (Js.String_of_nat r)) =? 3)%nat)
                (seq 0 1000) = true) by (vm_compute; reflexivity).
  rewrite forallb_forall in A.
  apply Nat.eqb_eq, A, in_seq. lia.
Qed.

(** *** The identifiers that the pre-save hooks make *)

(** X24. The pre-save hook of the account model, given a document without
    account number, makes a number of at least 12 characters that reads
    back as the count of the accounts of the document's bank plus one: the
    zeros in front do not change the number. *)
Theorem generated_account_number_reads_back doc s :
  accountNumber doc = "" ->
  let number := accountNumber (generateAccountNumber doc s) in
  parseDecimal number
  = Some (countDocuments_byBank (cooperativeBankId doc) s + 1)
  /\ 12 <= String.length number.
Proof.
  intros H number. subst number. unfold generateAccountNumber.
  destruct (decide (accountNumber doc = "")); [|contradiction].
  cbn [accountNumber with_accountNumber].
  split; [apply parseDecimal_padStart|].
  unfold Js.padStart. rewrite length_append, length_repeat_char. lia.
Qed.

(** The hook on a new document of bank 1, which has two accounts. *)
Lemma generated_account_number_reads_back_witness :
  parseDecimal
    (accountNumber
       (generateAccountNumber
          (Account_new 30 1 current (Js.Num zero) (Js.Num zero) None).1
          twoAccounts))
  = Some 3
  /\ 12 <= String.length
             (accountNumber
                (generateAccountNumber
                   (Account_new 30 1 current (Js.Num zero) (Js.Num zero)
                      None).1 twoAccounts)).
Proof.
  exact (generated_account_number_reads_back
           (Account_new 30 1 current (Js.Num zero) (Js.Num zero) None).1
           twoAccounts eq_refl).
Defined.

(** X28. The identifier the pre-save hook makes determines the millisecond and
    the random number (below 1000) it was made of: two transactions get the
    same identifier only when both are the same. *)
Theorem transaction_id_determines_time_and_random env env' :
  random1000 env < 1000 -> random1000 env' < 1000 ->
  generateTransactionId env = generateTransactionId env' ->
  now env = now env' /\ random1000 env = random1000 env'.
Proof.
  intros R R' H. unfold generateTransactionId in H.
  apply append_inj_prefix in H.
  apply append_inj_suffix in H as [Ht Hr];
    [|now rewrite !random_suffix_length].
  split.
  - apply (f_equal parseDecimalN) in Ht.
    rewrite !parseDecimalN_String_of_N in Ht. congruence.
  - apply (f_equal parseDecimal) in Hr.
    rewrite !parseDecimal_padStart in Hr. congruence.
Qed.

(** Two saves in the same millisecond with the same random number. *)
Lemma transaction_id_determines_time_and_random_witness :
  now env0 = now (mkEnv 1700000000000 7 555)
  /\ random1000 env0 = random1000 (mkEnv 1700000000000 7 555).
Proof.
  exact (transaction_id_determines_time_and_random env0
           (mkEnv 1700000000000 7 555) ltac:(vm_compute; lia)
           ltac:(vm_compute; lia) eq_refl).
Defined.

(** *** The two routes that read one account *)

(** X26. GET /:accountId/balance does not look at the bank: an admin or a
    manager of another bank, whom GET /:accountId does not give the account,
    is given its number, balance and type. *)
Theorem balance_is_shown_across_banks banks user i a s :
  accounts s !! i = Some a ->
  role user = admin \/ role user = manager ->
  cooperativeBankId a <> userCooperativeBankId user ->
  (forall x, accountRoute banks user i s <> AccountFound x)
  /\ balanceRoute user i s
     = BalanceOf (accountNumber a) (balance a) (accountType a).
Proof.
  intros Ha Hr Hb. unfold accountRoute, balanceRoute, accessDenied.
  rewrite Ha. split.
  - intros x.
    destruct (negb (userId a =? user_id user)%N
              && negb (includes [admin; manager; super_admin] (role user)));
      [discriminate|].
    destruct (decide (role user = super_admin)) as [E|_];
      [destruct Hr as [Hr|Hr]; congruence|].
    destruct (decide (cooperativeBankId a ∈ banks)); [|discriminate].
    destruct (decide (cooperativeBankId a = userCooperativeBankId user));
      [contradiction|discriminate].
  - replace (includes [admin; manager] (role user)) with true.
    + now rewrite andb_false_r.
    + destruct Hr as [-> | ->]; reflexivity.
Qed.

Lemma balance_is_shown_across_banks_witness :
  (forall x, accountRoute {[1%N; 2%N]} adminOfBank2 1 accountsOfTwoBanks
             <> AccountFound x)
  /\ balanceRoute adminOfBank2 1 accountsOfTwoBanks
     = BalanceOf "000000000001" (Js.of_Z 5000) savings.
Proof.
  apply (balance_is_shown_across_banks {[1%N; 2%N]} adminOfBank2 1
           (acct "000000000001" 10 1 5000 1000) accountsOfTwoBanks).
  - reflexivity.
  - left. reflexivity.
  - discriminate.
Defined.

(** X27. A super admin who does not own an account is given the whole
    document by GET /:accountId and is refused its balance by
    GET /:accountId/balance. *)
Theorem super_admin_reads_account_but_not_balance banks user i a s :
  accounts s !! i = Some a ->
  role user = super_admin ->
  userId a <> user_id user ->
  accountRoute banks user i s = AccountFound a
  /\ balanceRoute user i s = BalanceRefused 403 "Access denied".
Proof.
  intros Ha Hr Hu. unfold accountRoute, balanceRoute, accessDenied.
  rewrite Ha, Hr. apply N.eqb_neq in Hu. rewrite Hu. simpl.
  split; reflexivity.
Qed.

Lemma super_admin_reads_account_but_not_balance_witness :
  accountRoute ∅ superAdmin 2 accountsOfTwoBanks
  = AccountFound (acct "000000000002" 20 2 500 0)
  /\ balanceRoute superAdmin 2 accountsOfTwoBanks
     = BalanceRefused 403 "Access denied".
Proof.
  apply (super_admin_reads_account_but_not_balance ∅ superAdmin 2
           (acct "000000000002" 20 2 500 0) accountsOfTwoBanks).
  - reflexivity.
  - reflexivity.
  - discriminate.
Defined.
